(** * DaSystem Log Service: a shallow embedding of [src/index.js]

    The worker is a sequence of validate / persist / notify steps.  Its code is
    embedded as functions in a state-and-exception monad:

    - JavaScript values that can reach the handlers (the results of
      [JSON.parse], plus [undefined]) are the inductive type [value];
    - the module-level globals [G_DB] and [G_ENV] and the log of effects are
      the [state];
    - [throw] / [try ... catch] are the [Throw] outcome and [try_catch];
    - what the platform provides ([JSON.parse], number/string conversions, the
      global [fetch], the D1 binding) is the interface [Runtime] and the
      [D1Database] handle: every theorem holds for all of their behaviours. *)

From Stdlib Require Import String Ascii ZArith List Bool Lia.
From Stdlib Require Import Floats.SpecFloat.
Import ListNotations.
Open Scope string_scope.
Open Scope Z_scope.

(** ** JavaScript values *)

(** A JavaScript number is an IEEE-754 binary64 datum. *)
Definition number : Type := spec_float.

Definition pos_zero : number := S754_zero false.
Definition num_one : number := S754_finite false 4503599627370496 (-52).
Definition num_three : number := S754_finite false 6755399441055744 (-51).

(** The fields of an object are its own properties in insertion order, one
    entry per key ([JSON.parse] keeps a single value for a repeated key). *)
#[warnings="-register-all"]
Inductive value : Type :=
| VUndefined
| VNull
| VBool (b : bool)
| VNum (n : number)
| VStr (s : string)
| VObj (fields : list (string * value))
| VArr (elems : list value).

(** The line feed written [\n] in the source's literals. *)
Definition nl : string := String (ascii_of_nat 10) EmptyString.

(** ToBoolean: what [!x] and [x || y] test. *)
Definition truthy (v : value) : bool :=
  match v with
  | VUndefined | VNull => false
  | VBool b => b
  | VNum (S754_zero _) | VNum S754_nan => false
  | VNum _ => true
  | VStr s => negb (String.eqb s "")
  | VObj _ | VArr _ => true
  end.

(** [x === undefined]. *)
Definition is_undefined (v : value) : bool :=
  match v with VUndefined => true | _ => false end.

Definition nullish (v : value) : bool :=
  match v with VUndefined | VNull => true | _ => false end.

(** [typeof x], for the values of this model. *)
Definition typeof (v : value) : string :=
  match v with
  | VUndefined => "undefined"
  | VNull | VObj _ | VArr _ => "object"
  | VBool _ => "boolean"
  | VNum _ => "number"
  | VStr _ => "string"
  end.

(** [Array.isArray]. *)
Definition isArray (v : value) : bool :=
  match v with VArr _ => true | _ => false end.

Fixpoint lookup (k : string) (fields : list (string * value)) : value :=
  match fields with
  | [] => VUndefined
  | (k', v) :: rest => if String.eqb k k' then v else lookup k rest
  end.

(** [v.k] on a non-nullish [v], for the property names the worker reads
    ([request_id], [payload], [service], [instance], [level], [message],
    [items], [messages], [data]): none of them is inherited from a built-in
    prototype, so only own properties of objects answer. *)
Definition prop (v : value) (k : string) : value :=
  match v with
  | VObj fields => lookup k fields
  | _ => VUndefined
  end.

(** [v?.k]. *)
Definition optional_prop (v : value) (k : string) : value :=
  if nullish v then VUndefined else prop v k.

(** V8's message for a property read on [null] or [undefined]. *)
Definition type_error_read (v : value) (k : string) : string :=
  "Cannot read properties of "
    ++ (match v with VNull => "null" | _ => "undefined" end)
    ++ " (reading '" ++ k ++ "')".

(** ** Strings *)

Fixpoint startsWith (s p : string) : bool :=
  match p, s with
  | EmptyString, _ => true
  | String c p', String d s' => Ascii.eqb c d && startsWith s' p'
  | String _ _, EmptyString => false
  end.

(** [s.split(" ")]. *)
Fixpoint split_space (s : string) : list string :=
  match s with
  | EmptyString => [EmptyString]
  | String c s' =>
      if Ascii.eqb c " "%char then EmptyString :: split_space s'
      else match split_space s' with
           | [] => [String c EmptyString]
           | h :: t => String c h :: t
           end
  end.

(** Strict equality between two values that are each a string or [undefined]
    / [null] (an absent header, an unset variable). *)
Definition opt_string_eqb (a b : option string) : bool :=
  match a, b with
  | Some x, Some y => String.eqb x y
  | None, None => true
  | _, _ => false
  end.

(** [!x] is false for a string-or-absent [x]. *)
Definition truthy_opt (a : option string) : bool :=
  match a with
  | Some s => negb (String.eqb s "")
  | None => false
  end.

Definition opt_to_string (a : option string) : string :=
  match a with Some s => s | None => "undefined" end.

(** ** Effects *)

Inductive event : Type :=
| ReadBody
| ConsoleError (msg : string)
| D1Run (sql : string) (binds : list value)
| Fetch (url method : string) (headers : list (string * string)) (json_body : value)
| Call_handleApiRequest (requestId payload : value)
| Call_messageTelegram (logData : value)
| Call_errDelegate (msg : string).

(** The D1 binding.  [prepare(sql).bind(...).run()] either resolves ([None])
    or rejects with an error of the given message; the answer may depend on
    everything that happened before. *)
Record D1Database : Type := { d1_run : list event -> string -> list value -> option string }.

Record Env : Type := {
  DA_WRITETOKEN : option string;
  ABLY_WEBHOOK_SECRET : option string;
  LOG_TELEGRAM_BOT_TOKEN : option string;
  LOG_TELEGRAM_CHAT_ID : option string;
  DB : option D1Database
}.

(** The part of a [Request] the worker looks at: [headers.get] answers [null]
    ([None]) for an absent header; [pathname] is [new URL(request.url).pathname]. *)
Record Request : Type := {
  method : string;
  pathname : string;
  header_Authorization : option string;
  header_X_Ably_Auth : option string;
  body_text : string
}.

(** A response body is a text or [JSON.stringify(v, null, 2)] of a value [v]. *)
Inductive body : Type :=
| TextBody (s : string)
| JsonBody (v : value).

Record Response : Type := {
  resp_body : body;
  status : Z;
  headers : list (string * string)
}.

(** The platform. *)
Class Runtime : Type := {
  JSON_parse : string -> value + string;
  NumberToString : number -> string;
  StringToNumber : string -> number;
  StringToNumber_empty : StringToNumber "" = pos_zero;
  fetch_outcome : list event -> string -> value -> option string
}.

(** The globals of the module ([let G_DB = null; let G_ENV = null;]) and the
    effects so far. *)
Inductive db_ref : Type :=
| DbNull
| DbUndefined
| DbHandle (d : D1Database).

Record state : Type := {
  G_DB : db_ref;
  G_ENV : option Env;
  trace : list event
}.

Definition initial_state : state :=
  {| G_DB := DbNull; G_ENV := None; trace := [] |}.

Inductive outcome (A : Type) : Type :=
| Return (a : A)
| Throw (message : string).
Arguments Return {A} a.
Arguments Throw {A} message.

Definition M (A : Type) : Type := state -> outcome A * state.

Definition ret {A} (a : A) : M A := fun st => (Return a, st).

Definition throw {A} (message : string) : M A := fun st => (Throw message, st).

Definition bind {A B} (c : M A) (k : A -> M B) : M B :=
  fun st =>
    match c st with
    | (Return a, st') => k a st'
    | (Throw m, st') => (Throw m, st')
    end.

Definition try_catch {A} (c : M A) (handler : string -> M A) : M A :=
  fun st =>
    match c st with
    | (Return a, st') => (Return a, st')
    | (Throw m, st') => handler m st'
    end.

Notation "x <- c ;; k" := (bind c (fun x => k))
  (at level 61, c at next level, right associativity).
Notation "c ;; k" := (bind c (fun _ => k))
  (at level 61, right associativity).

(** The state after some more effects; the globals stay. *)
Definition extend (st : state) (delta : list event) : state :=
  {| G_DB := G_DB st; G_ENV := G_ENV st; trace := trace st ++ delta |}.

Definition log (e : event) : M unit :=
  fun st => (Return tt, extend st [e]).

Definition set_G_ENV (e : Env) : M unit :=
  fun st => (Return tt, {| G_DB := G_DB st; G_ENV := Some e; trace := trace st |}).

Definition set_G_DB (d : option D1Database) : M unit :=
  fun st =>
    (Return tt,
     {| G_DB := match d with Some h => DbHandle h | None => DbUndefined end;
        G_ENV := G_ENV st; trace := trace st |}).

(** [v.k]: a TypeError on [null] and [undefined]. *)
Definition get (v : value) (k : string) : M value :=
  if nullish v then throw (type_error_read v k) else ret (prop v k).

Definition console_error (msg : string) : M unit := log (ConsoleError msg).

(** [for (const x of xs) { body }]; a [continue] in the body is its [ret tt]. *)
Fixpoint for_of {A} (xs : list A) (body : A -> M unit) : M unit :=
  match xs with
  | [] => ret tt
  | x :: rest => body x ;; for_of rest body
  end.

Definition array_elems (v : value) : list value :=
  match v with VArr l => l | _ => [] end.

(** A pure step that may throw. *)
Definition lift {A} (o : outcome A) : M A := fun st => (o, st).

(** V8's message when an object has no usable [toString] or [valueOf]. *)
Definition coercion_error : string := "Cannot convert object to primitive value".

(** The object has an own property [k]. *)
Fixpoint has_key (k : string) (fields : list (string * value)) : bool :=
  match fields with
  | [] => false
  | (k', _) :: rest => String.eqb k k' || has_key k rest
  end.

(** ** The worker *)

Section Worker.

Context {R : Runtime}.

(** ToString, as a template literal, [JSON.parse] and [join] apply it.  An
    object converts through [Object.prototype.toString], unless an own
    property named [toString] hides it: a value read from JSON is never
    callable, the inherited [valueOf] answers the object itself, and the
    conversion throws a TypeError.  An array converts through [join], which
    converts its elements ([null] and [undefined] to the empty string) and
    throws when one of them does. *)
Fixpoint ToString (v : value) : outcome string :=
  match v with
  | VUndefined => Return "undefined"
  | VNull => Return "null"
  | VBool true => Return "true"
  | VBool false => Return "false"
  | VNum n => Return (NumberToString n)
  | VStr s => Return s
  | VObj fields =>
      if has_key "toString" fields then Throw coercion_error
      else Return "[object Object]"
  | VArr l =>
      (fix join (xs : list value) : outcome string :=
         match xs with
         | [] => Return ""
         | x :: rest =>
             match (match x with
                    | VUndefined | VNull => Return ""
                    | _ => ToString x
                    end) with
             | Throw m => Throw m
             | Return first =>
                 match rest with
                 | [] => Return first
                 | _ :: _ =>
                     match join rest with
                     | Throw m => Throw m
                     | Return others => Return (first ++ "," ++ others)
                     end
                 end
             end
         end) l
  end.

(** ToNumber; objects and arrays go through their string form (the inherited
    [valueOf] does not answer a primitive), and throw when it does. *)
Definition ToNumber (v : value) : outcome number :=
  match v with
  | VUndefined => Return S754_nan
  | VNull => Return pos_zero
  | VBool true => Return num_one
  | VBool false => Return pos_zero
  | VNum n => Return n
  | VStr s => Return (StringToNumber s)
  | VObj _ | VArr _ =>
      match ToString v with
      | Return s => Return (StringToNumber s)
      | Throw m => Throw m
      end
  end.

(** [x >= n] for a number [n]: false when [x] converts to NaN or to less; the
    TypeError of the conversion when [x] does not convert. *)
Definition js_ge (x : value) (n : number) : outcome bool :=
  match ToNumber x with
  | Throw m => Throw m
  | Return nx =>
      Return (match SFcompare nx n with
              | Some Eq | Some Gt => true
              | Some Lt | None => false
              end)
  end.

(** [JSON.parse(text)], throwing the SyntaxError. *)
Definition JSON_parse_M (text : string) : M value :=
  match JSON_parse text with
  | inl v => ret v
  | inr m => throw m
  end.

(** [await request.text()] and [await request.json()]. *)
Definition request_text (request : Request) : M string :=
  log ReadBody ;; ret (body_text request).

Definition request_json (request : Request) : M value :=
  log ReadBody ;; JSON_parse_M (body_text request).

(** The global [fetch]: the call is recorded, then resolves or rejects. *)
Definition js_fetch (url method : string) (hdrs : list (string * string))
    (json_body : value) : M unit :=
  fun st =>
    let st' := extend st [Fetch url method hdrs json_body] in
    match fetch_outcome (trace st) url json_body with
    | None => (Return tt, st')
    | Some m => (Throw m, st')
    end.

Definition insert_sql : string := "INSERT INTO log1 (c1, c2, i1, t1) VALUES (?, ?, ?, ?)".

(** [await G_DB.prepare(sql).bind(...).run()]. *)
Definition G_DB_run (sql : string) (binds : list value) : M unit :=
  fun st =>
    match G_DB st with
    | DbNull => (Throw (type_error_read VNull "prepare"), st)
    | DbUndefined => (Throw (type_error_read VUndefined "prepare"), st)
    | DbHandle d =>
        let st' := extend st [D1Run sql binds] in
        match d1_run d (trace st) sql binds with
        | None => (Return tt, st')
        | Some m => (Throw m, st')
        end
    end.

Definition jsonResponse (obj : value) (st : Z) : Response :=
  {| resp_body := JsonBody obj;
     status := st;
     headers := [("Content-Type", "application/json")] |}.

Definition ack (requestId : value) : Response :=
  jsonResponse (VObj [("type", VStr "ack"); ("request_id", requestId)]) 200.

Definition nack (requestId : value) (code message : string) : Response :=
  jsonResponse
    (VObj [("type", VStr "nack");
           ("request_id", requestId);
           ("payload", VObj [("status", VStr "error");
                             ("code", VStr code);
                             ("message", VStr message)])])
    400.

Definition text_response (text : string) (st : Z) : Response :=
  {| resp_body := TextBody text; status := st; headers := [] |}.

Definition notifyTextTelegram (logData : string) : M unit :=
  try_catch
    (fun st =>
       match G_ENV st with
       | None => ret tt st
       | Some env =>
           let botToken := LOG_TELEGRAM_BOT_TOKEN env in
           let chatId := LOG_TELEGRAM_CHAT_ID env in
           if negb (truthy_opt botToken) || negb (truthy_opt chatId) then ret tt st
           else
             let apiUrl := "https://api.telegram.org/bot" ++ opt_to_string botToken
                             ++ "/sendMessage" in
             let msg := logData in
             js_fetch apiUrl "POST" [("Content-Type", "application/json")]
               (VObj [("chat_id", VStr (opt_to_string chatId));
                      ("text", VStr msg);
                      ("parse_mode", VStr "Markdown")]) st
       end)
    (fun err => console_error ("notifyTelegramByLevel error: " ++ err)).

Definition errDelegate (msg : string) : M unit :=
  log (Call_errDelegate msg) ;;
  console_error msg ;;
  notifyTextTelegram ("❌ *Error*" ++ nl ++ msg).

Definition messageTelegram (logData : value) : M unit :=
  log (Call_messageTelegram logData) ;;
  try_catch
    (message <- get logData "message" ;;
     message_text <- lift (ToString message) ;;
     service <- get logData "service" ;;
     service_text <- lift (ToString service) ;;
     instance <- get logData "instance" ;;
     instance_text <- lift (ToString instance) ;;
     level <- get logData "level" ;;
     level_text <- lift (ToString level) ;;
     let msg := message_text ++ nl ++ nl ++ "🧩 " ++ service_text ++ "/"
                  ++ instance_text ++ nl ++ "🔢 Level: " ++ level_text in
     notifyTextTelegram msg)
    (fun err => console_error ("notifyTelegramByLevel error: " ++ err)).

(** [const { service, instance, level, message } = payload;] *)
Definition destructure4 (payload : value) : M (value * value * value * value) :=
  if nullish payload
  then throw ("Cannot destructure property 'service' of 'payload' as it is "
                ++ (match payload with VNull => "null" | _ => "undefined" end) ++ ".")
  else ret (prop payload "service", prop payload "instance",
            prop payload "level", prop payload "message").

Definition handleApiRequest (requestId payload : value) : M Response :=
  log (Call_handleApiRequest requestId payload) ;;
  fields <- destructure4 payload ;;
  let '(service, instance, level, message) := fields in
  if negb (truthy service) || negb (truthy instance) || is_undefined level
     || negb (truthy message)
  then ret (nack requestId "MissingField"
              "Missing fields in payload: service, instance, level, message")
  else
    G_DB_run insert_sql [service; instance; level; message] ;;
    high <- lift (js_ge level num_three) ;;
    (if (high : bool) then messageTelegram payload else ret tt) ;;
    ret (ack requestId).

Definition handleApi (request : Request) (env : Env) : M Response :=
  let auth := header_Authorization request in
  if negb (truthy_opt auth) || negb (startsWith (opt_to_string auth) "Bearer ")
  then ret (nack (VStr "unknown") "UNAUTHORIZED" "Missing or invalid Authorization header")
  else
    let token := nth_error (split_space (opt_to_string auth)) 1 in
    if negb (opt_string_eqb token (DA_WRITETOKEN env))
    then ret (nack (VStr "unknown") "INVALID_TOKEN" "Token authentication failed")
    else
      parsed <- try_catch (b <- request_json request ;; ret (Some b))
                  (fun _ => ret None) ;;
      match parsed with
      | None => ret (nack (VStr "unknown") "INVALID_JSON" "Malformed JSON body")
      | Some body =>
          rid <- get body "request_id" ;;
          let requestId := if truthy rid then rid else VStr "unknown" in
          payload <- get body "payload" ;;
          invalid <- (if negb (truthy payload) then ret true
                      else message <- get payload "message" ;;
                           ret (negb (truthy message))) ;;
          if (invalid : bool)
          then ret (nack requestId "INVALID_FIELD" "Missing required field: payload.message")
          else
            set_G_ENV env ;;
            set_G_DB (DB env) ;;
            try_catch (handleApiRequest requestId payload)
              (fun err =>
                 errDelegate ("handleApiRequest failed: " ++ err) ;;
                 ret (nack requestId "DB_ERROR" err))
      end.

(** The body of the webhook's [for (const msg of messages)] loop. *)
Definition webhook_message (msg : value) : M unit :=
  data <- get msg "data" ;;
  if negb (truthy data) then ret tt
  else
    parsed <- try_catch (text <- lift (ToString data) ;;
                         v <- JSON_parse_M text ;;
                         ret (Some v))
                (fun err =>
                   errDelegate ("❌ Could not parse message.data JSON: " ++ err) ;;
                   ret None) ;;
    match parsed with
    | None => ret tt
    | Some msgpayload =>
        let payload := optional_prop msgpayload "payload" in
        if negb (truthy payload) || negb (String.eqb (typeof payload) "object")
        then ret tt
        else
          try_catch (handleApiRequest (VStr "unknow") payload ;; ret tt)
            (fun err =>
               errDelegate ("💥 handleApiRequest failed: " ++ err) ;;
               errDelegate ("Ably webhook failed: " ++ err))
    end.

Definition handleAblyWebhook (request : Request) (env : Env) : M Response :=
  try_catch
    (let headerSecret := header_X_Ably_Auth request in
     if negb (truthy_opt headerSecret)
        || negb (opt_string_eqb headerSecret (ABLY_WEBHOOK_SECRET env))
     then
       console_error "❌ Invalid Ably webhook secret" ;;
       ret (text_response "Unauthorized" 401)
     else
       text <- request_text request ;;
       parsed <- try_catch (b <- JSON_parse_M text ;; ret (inl b))
                   (fun err =>
                      errDelegate ("❌ JSON parse error:" ++ err) ;;
                      ret (inr (text_response "Invalid JSON" 400))) ;;
       match parsed with
       | inr response => ret response
       | inl body =>
           items <- get body "items" ;;
           messages <- (if truthy items then ret items else get body "messages") ;;
           if negb (truthy messages) || negb (isArray messages)
           then
             errDelegate "❌ No messages in webhook payload" ;;
             ret (text_response "Invalid webhook format" 400)
           else
             set_G_ENV env ;;
             set_G_DB (DB env) ;;
             for_of (array_elems messages) webhook_message ;;
             ret (text_response "OK" 200)
       end)
    (fun err =>
       errDelegate ("Webhook error: " ++ err) ;;
       ret (text_response "Internal Server Error" 500)).

(** The worker's [fetch] entry point. *)
Definition fetch (request : Request) (env : Env) : M Response :=
  if negb (String.eqb (method request) "POST")
  then ret (text_response "Method Not Allowed" 405)
  else if String.eqb (pathname request) "/api" then handleApi request env
  else if String.eqb (pathname request) "/ably" then handleAblyWebhook request env
  else ret (text_response "Not Found" 404).

End Worker.

(** ** Reading a trace *)

Definition is_storage_call (e : event) : bool :=
  match e with D1Run _ _ => true | _ => false end.

Definition is_notification_call (e : event) : bool :=
  match e with Call_messageTelegram _ => true | _ => false end.

Definition is_error_report (e : event) : bool :=
  match e with Call_errDelegate _ => true | _ => false end.

Definition is_pipeline_call (e : event) : bool :=
  match e with Call_handleApiRequest _ _ => true | _ => false end.

(** What the transport layer itself leaves in the trace. *)
Definition is_transport (e : event) : bool :=
  match e with Fetch _ _ _ _ | ConsoleError _ => true | _ => false end.

Definition quiet (l : list event) : Prop := forallb is_transport l = true.

(** The outcome and the trace of a run. *)
Definition result_of {A} (c : M A) (st : state) : outcome A := fst (c st).
Definition trace_of {A} (c : M A) (st : state) : list event := trace (snd (c st)).

(** The test of [handleApiRequest] on the four fields of a payload. *)
Definition missing_fields (payload : value) : bool :=
  negb (truthy (prop payload "service"))
  || negb (truthy (prop payload "instance"))
  || is_undefined (prop payload "level")
  || negb (truthy (prop payload "message")).

(** The values [handleApiRequest] binds to the insert statement. *)
Definition row_of (payload : value) : list value :=
  [prop payload "service"; prop payload "instance";
   prop payload "level"; prop payload "message"].

(** The credential test of [handleApi]. *)
Definition bearer_token (auth : option string) : option string :=
  nth_error (split_space (opt_to_string auth)) 1.

Definition well_formed_authorization (auth : option string) : bool :=
  truthy_opt auth && startsWith (opt_to_string auth) "Bearer ".

Definition api_authorized (request : Request) (env : Env) : bool :=
  well_formed_authorization (header_Authorization request)
  && opt_string_eqb (bearer_token (header_Authorization request)) (DA_WRITETOKEN env).

(** The credential test of [handleAblyWebhook]. *)
Definition webhook_authorized (request : Request) (env : Env) : bool :=
  truthy_opt (header_X_Ably_Auth request)
  && opt_string_eqb (header_X_Ably_Auth request) (ABLY_WEBHOOK_SECRET env).

(** [body.request_id || "unknown"]. *)
Definition request_id_of (body : value) : value :=
  if truthy (prop body "request_id") then prop body "request_id" else VStr "unknown".

(** [body.items || body.messages]. *)
Definition messages_of (body : value) : value :=
  if truthy (prop body "items") then prop body "items" else prop body "messages".

(** An event is not a pipeline call, or is one under the request id [rid]. *)
Definition pipeline_call_under (rid : value) (e : event) : Prop :=
  forall r p, e = Call_handleApiRequest r p -> r = rid.

(** A computation only adds events, all of them satisfying [P]. *)
Definition emits {A} (P : event -> Prop) (c : M A) : Prop :=
  forall st, exists delta, trace (snd (c st)) = (trace st ++ delta)%list /\ Forall P delta.

Section Reading.

Context {R : Runtime}.

(** [JSON.parse(x)] for a value [x]: the parsed value, or the message of
    the error thrown (by the conversion of [x] to a text, or by the parser). *)
Definition JSON_parse_value (x : value) : value + string :=
  match ToString x with
  | Throw m => inr m
  | Return text => JSON_parse text
  end.

(** The insert a webhook message leads to: one when its [data] converts to a
    text that decodes to an object whose [payload] is an object passing the
    field test, none otherwise. *)
Definition message_rows (msg : value) : list event :=
  if negb (truthy (prop msg "data")) then []
  else
    match ToString (prop msg "data") with
    | Throw _ => []
    | Return text =>
        match JSON_parse text with
        | inr _ => []
        | inl msgpayload =>
            let payload := optional_prop msgpayload "payload" in
            if negb (truthy payload) || negb (String.eqb (typeof payload) "object") then []
            else if missing_fields payload then []
            else [D1Run insert_sql (row_of payload)]
        end
    end.

End Reading.

(** The globals after [G_ENV = env; G_DB = env.DB;]. *)
Definition with_env (env : Env) (st : state) : state :=
  {| G_DB := match DB env with Some h => DbHandle h | None => DbUndefined end;
     G_ENV := Some env;
     trace := trace st |}.

(** A response carrying the nack envelope. *)
Definition is_nack (r : Response) : bool :=
  match resp_body r with
  | JsonBody v => match prop v "type" with VStr t => String.eqb t "nack" | _ => false end
  | TextBody _ => false
  end.

(** ** Concrete inputs *)

Definition dq : string := String (ascii_of_nat 34) EmptyString.
Definition bslash : string := String (ascii_of_nat 92) EmptyString.

(** A JSON string literal for [s] (quotes and backslashes escaped). *)
Fixpoint json_escape (s : string) : string :=
  match s with
  | EmptyString => EmptyString
  | String c s' =>
      (if Ascii.eqb c (ascii_of_nat 34) then bslash ++ dq
       else if Ascii.eqb c (ascii_of_nat 92) then bslash ++ bslash
       else String c EmptyString) ++ json_escape s'
  end.

Definition q (s : string) : string := dq ++ json_escape s ++ dq.

Definition num_five : number := S754_finite false 5629499534213120 (-50).

Definition ex_payload (level : value) : value :=
  VObj [("service", VStr "billing"); ("instance", VStr "eu-1");
        ("level", level); ("message", VStr "disk full")].

Definition ex_payload_no_level : value :=
  VObj [("service", VStr "billing"); ("instance", VStr "eu-1");
        ("message", VStr "disk full")].

(** [{"service":"billing","instance":"eu-1","level":L,"message":"disk full"}] *)
Definition ex_payload_text (level : string) : string :=
  "{" ++ q "service" ++ ":" ++ q "billing" ++ "," ++ q "instance" ++ ":" ++ q "eu-1"
      ++ "," ++ q "level" ++ ":" ++ level ++ "," ++ q "message" ++ ":" ++ q "disk full"
      ++ "}".

(** [{"service":"billing","instance":"eu-1","message":"disk full"}] *)
Definition ex_payload_no_level_text : string :=
  "{" ++ q "service" ++ ":" ++ q "billing" ++ "," ++ q "instance" ++ ":" ++ q "eu-1"
      ++ "," ++ q "message" ++ ":" ++ q "disk full" ++ "}".

(** [{"request_id":"r-1","payload":P}] *)
Definition ex_api_text (payload : string) : string :=
  "{" ++ q "request_id" ++ ":" ++ q "r-1" ++ "," ++ q "payload" ++ ":" ++ payload ++ "}".

Definition ex_api_body (payload : value) : value :=
  VObj [("request_id", VStr "r-1"); ("payload", payload)].

(** The decoded [data] of a webhook message: [{"payload":P}]. *)
Definition ex_data_text (payload : string) : string :=
  "{" ++ q "payload" ++ ":" ++ payload ++ "}".

Definition ex_bad_data : string := "{bad".

(** [{"data":D}] with [D] the JSON string literal of [data]. *)
Definition ex_message_text (data : string) : string :=
  "{" ++ q "data" ++ ":" ++ q data ++ "}".

Definition ex_message (data : string) : value := VObj [("data", VStr data)].

(** [{"items":[M1,M2,M3]}]: a low-level event, undecodable data, a high-level event. *)
Definition ex_batch_text : string :=
  "{" ++ q "items" ++ ":["
      ++ ex_message_text (ex_data_text (ex_payload_text "0")) ++ ","
      ++ ex_message_text ex_bad_data ++ ","
      ++ ex_message_text (ex_data_text (ex_payload_text "5")) ++ "]}".

Definition ex_batch : list value :=
  [ex_message (ex_data_text (ex_payload_text "0"));
   ex_message ex_bad_data;
   ex_message (ex_data_text (ex_payload_text "5"))].

(** [{"items":[M]}] with a message whose payload has no level. *)
Definition ex_batch_no_level_text : string :=
  "{" ++ q "items" ++ ":[" ++ ex_message_text (ex_data_text ex_payload_no_level_text) ++ "]}".

(** [{"items":[{"data":""}]}]: a message whose data is the empty string. *)
Definition ex_batch_empty_data_text : string :=
  "{" ++ q "items" ++ ":[" ++ ex_message_text "" ++ "]}".

(** [{"items":[{"data":"{bad"},null]}]: undecodable data, then a [null] element. *)
Definition ex_batch_null_text : string :=
  "{" ++ q "items" ++ ":[" ++ ex_message_text ex_bad_data ++ ",null]}".

(** [JSON.parse] on the texts above. *)
Definition ex_parse (text : string) : value + string :=
  if String.eqb text "" then inr "Unexpected end of JSON input"
  else if String.eqb text ex_batch_empty_data_text
  then inl (VObj [("items", VArr [ex_message ""])])
  else if String.eqb text ex_batch_null_text
  then inl (VObj [("items", VArr [ex_message ex_bad_data; VNull])])
  else if String.eqb text (ex_api_text (ex_payload_text "0"))
  then inl (ex_api_body (ex_payload (VNum pos_zero)))
  else if String.eqb text (ex_api_text ex_payload_no_level_text)
  then inl (ex_api_body ex_payload_no_level)
  else if String.eqb text (ex_data_text (ex_payload_text "0"))
  then inl (VObj [("payload", ex_payload (VNum pos_zero))])
  else if String.eqb text (ex_data_text (ex_payload_text "5"))
  then inl (VObj [("payload", ex_payload (VNum num_five))])
  else if String.eqb text (ex_data_text ex_payload_no_level_text)
  then inl (VObj [("payload", ex_payload_no_level)])
  else if String.eqb text ex_batch_text
  then inl (VObj [("items", VArr ex_batch)])
  else if String.eqb text ex_batch_no_level_text
  then inl (VObj [("items", VArr [ex_message (ex_data_text ex_payload_no_level_text)])])
  else inr "Unexpected token".

Definition ex_number_to_string (n : number) : string :=
  match n with
  | S754_zero _ => "0"
  | S754_nan => "NaN"
  | S754_infinity false => "Infinity"
  | S754_infinity true => "-Infinity"
  | S754_finite s m e =>
      if SFeqb n num_five then "5" else if SFeqb n num_three then "3" else "1"
  end.

Definition ex_string_to_number (s : string) : number :=
  if String.eqb s "" then pos_zero
  else if String.eqb s "5" then num_five
  else if String.eqb s "3" then num_three
  else S754_nan.

(** A platform whose notification transport always fails. *)
Definition ex_runtime : Runtime :=
  {| JSON_parse := ex_parse;
     NumberToString := ex_number_to_string;
     StringToNumber := ex_string_to_number;
     StringToNumber_empty := eq_refl;
     fetch_outcome := fun _ _ _ => Some "network down" |}.

Definition ex_db : D1Database := {| d1_run := fun _ _ _ => None |}.

Definition ex_db_down : D1Database := {| d1_run := fun _ _ _ => Some "D1_ERROR: no such table" |}.

Definition ex_env (db : option D1Database) : Env :=
  {| DA_WRITETOKEN := Some "write-token";
     ABLY_WEBHOOK_SECRET := Some "hook-secret";
     LOG_TELEGRAM_BOT_TOKEN := Some "bot";
     LOG_TELEGRAM_CHAT_ID := Some "chat";
     DB := db |}.

(** The globals as a previous request left them. *)
Definition ex_state (db : D1Database) : state :=
  {| G_DB := DbHandle db; G_ENV := Some (ex_env (Some db)); trace := [] |}.

Definition ex_api_request (auth : option string) (text : string) : Request :=
  {| method := "POST"; pathname := "/api";
     header_Authorization := auth; header_X_Ably_Auth := None;
     body_text := text |}.

Definition ex_webhook_request (secret : option string) (text : string) : Request :=
  {| method := "POST"; pathname := "/ably";
     header_Authorization := None; header_X_Ably_Auth := secret;
     body_text := text |}.

(** ** Further reading aids *)

(** A string without the separator of [split(" ")]. *)
Fixpoint no_space (s : string) : bool :=
  match s with
  | EmptyString => true
  | String c s' => negb (Ascii.eqb c " "%char) && no_space s'
  end.

(** Whenever the computation returns, its value satisfies [Q]. *)
Definition returns {A} (Q : A -> Prop) (c : M A) : Prop :=
  forall st, match fst (c st) with Return a => Q a | Throw _ => True end.

(** The computation returns from every state, with a value satisfying [Q]. *)
Definition always {A} (Q : A -> Prop) (c : M A) : Prop :=
  forall st, exists a, fst (c st) = Return a /\ Q a.

(** The five responses of the webhook handler. *)
Definition webhook_response (r : Response) : Prop :=
  r = text_response "OK" 200
  \/ r = text_response "Unauthorized" 401
  \/ r = text_response "Invalid JSON" 400
  \/ r = text_response "Invalid webhook format" 400
  \/ r = text_response "Internal Server Error" 500.

(** The storage and notification calls among some events. *)
Definition store_and_notify (delta : list event) : list event :=
  filter (fun e => is_storage_call e || is_notification_call e) delta.

(** A platform like [ex_runtime] that also parses the text [null]. *)
Definition ex_runtime_null : Runtime :=
  {| JSON_parse := fun text => if String.eqb text "null" then inl VNull else ex_parse text;
     NumberToString := ex_number_to_string;
     StringToNumber := ex_string_to_number;
     StringToNumber_empty := eq_refl;
     fetch_outcome := fun _ _ _ => Some "network down" |}.

(** A platform like [ex_runtime] whose transport works. *)
Definition ex_runtime_online : Runtime :=
  {| JSON_parse := ex_parse;
     NumberToString := ex_number_to_string;
     StringToNumber := ex_string_to_number;
     StringToNumber_empty := eq_refl;
     fetch_outcome := fun _ _ _ => None |}.

(** The same request under another [Authorization] header. *)
Definition with_authorization (request : Request) (auth : option string) : Request :=
  {| method := method request;
     pathname := pathname request;
     header_Authorization := auth;
     header_X_Ably_Auth := header_X_Ably_Auth request;
     body_text := body_text request |}.

(** An environment with the given write token and webhook secret. *)
Definition ex_env_with (token secret : option string) : Env :=
  {| DA_WRITETOKEN := token;
     ABLY_WEBHOOK_SECRET := secret;
     LOG_TELEGRAM_BOT_TOKEN := Some "bot";
     LOG_TELEGRAM_CHAT_ID := Some "chat";
     DB := Some ex_db |}.

Definition ex_low_request : Request :=
  ex_api_request (Some "Bearer write-token") (ex_api_text (ex_payload_text "0")).

Definition ex_low_body : value := ex_api_body (ex_payload (VNum pos_zero)).

(** [{"toString":1}]: an object that does not convert to a primitive. *)
Definition ex_odd : value := VObj [("toString", VNum num_one)].

Definition ex_odd_text : string := "{" ++ q "toString" ++ ":1}".

(** A platform like [ex_runtime] that also parses a Direct API body whose
    payload has the level [{"toString":1}]. *)
Definition ex_runtime_odd : Runtime :=
  {| JSON_parse := fun text =>
                     if String.eqb text (ex_api_text (ex_payload_text ex_odd_text))
                     then inl (ex_api_body (ex_payload ex_odd))
                     else ex_parse text;
     NumberToString := ex_number_to_string;
     StringToNumber := ex_string_to_number;
     StringToNumber_empty := eq_refl;
     fetch_outcome := fun _ _ _ => Some "network down" |}.

(** ** Basic facts *)

Lemma extend_nil (st : state) : extend st [] = st.
Proof. destruct st; unfold extend; simpl; now rewrite app_nil_r. Qed.

Lemma extend_extend (st : state) (a b : list event) :
  extend (extend st a) b = extend st (a ++ b).
Proof. unfold extend; simpl; now rewrite app_assoc. Qed.

Lemma quiet_filter (f : event -> bool) (l : list event) :
  (forall e, is_transport e = true -> f e = false) -> quiet l -> filter f l = [].
Proof.
  intros Hf; unfold quiet; induction l as [|e l IH]; simpl; intros H; [reflexivity|].
  apply andb_prop in H; destruct H as [He Hl].
  rewrite (Hf e He); auto.
Qed.

Lemma truthy_not_nullish (v : value) : truthy v = true -> nullish v = false.
Proof. destruct v; simpl; congruence. Qed.

Lemma truthy_prop_not_nullish (v : value) (k : string) :
  truthy (prop v k) = true -> nullish v = false.
Proof. destruct v; simpl; congruence. Qed.

Lemma bind_Return {A B} (c : M A) (k : A -> M B) (st st' : state) (a : A) :
  c st = (Return a, st') -> bind c k st = k a st'.
Proof. intros H; unfold bind; now rewrite H. Qed.

Lemma bind_Throw {A B} (c : M A) (k : A -> M B) (st st' : state) (m : string) :
  c st = (Throw m, st') -> bind c k st = (Throw m, st').
Proof. intros H; unfold bind; now rewrite H. Qed.

Lemma get_Return (v : value) (k : string) (st : state) :
  nullish v = false -> get v k st = (Return (prop v k), st).
Proof. intros H; unfold get; now rewrite H. Qed.

Lemma bind_lift {A B} (o : outcome A) (k : A -> M B) (st : state) :
  bind (lift o) k st
  = match o with
    | Return a => k a st
    | Throw m => (Throw m, st)
    end.
Proof. unfold bind, lift; destruct o; reflexivity. Qed.

Section Facts.

Context {R : Runtime}.

(** The raw-text sender never throws and only touches the transport. *)
Lemma notifyTextTelegram_spec (text : string) (st : state) :
  exists tail, notifyTextTelegram text st = (Return tt, extend st tail) /\ quiet tail.
Proof.
  unfold notifyTextTelegram, try_catch.
  destruct (G_ENV st) as [env|].
  - destruct (negb (truthy_opt (LOG_TELEGRAM_BOT_TOKEN env))
              || negb (truthy_opt (LOG_TELEGRAM_CHAT_ID env))).
    + exists []; rewrite extend_nil; split; reflexivity.
    + unfold js_fetch.
      destruct (fetch_outcome (trace st) _ _) as [m|].
      * eexists; unfold console_error, log; rewrite extend_extend; split; reflexivity.
      * eexists; split; reflexivity.
  - exists []; rewrite extend_nil; split; reflexivity.
Qed.

Lemma errDelegate_spec (msg : string) (st : state) :
  exists tail,
    errDelegate msg st
    = (Return tt, extend st (Call_errDelegate msg :: ConsoleError msg :: tail))
    /\ quiet tail.
Proof.
  unfold errDelegate, bind, console_error, log.
  destruct (notifyTextTelegram_spec ("❌ *Error*" ++ nl ++ msg)
              (extend (extend st [Call_errDelegate msg]) [ConsoleError msg]))
    as (tail & E & Q).
  rewrite E; exists tail; split; [|exact Q].
  now rewrite !extend_extend.
Qed.

Lemma messageTelegram_spec (logData : value) (st : state) :
  exists tail,
    messageTelegram logData st
    = (Return tt, extend st (Call_messageTelegram logData :: tail))
    /\ quiet tail.
Proof.
  unfold messageTelegram, bind at 1, log, try_catch.
  destruct (nullish logData) eqn:N.
  - unfold bind, get; rewrite N; unfold throw, console_error, log.
    eexists; rewrite extend_extend; split; reflexivity.
  - assert (caught : forall e,
              exists tail,
                console_error ("notifyTelegramByLevel error: " ++ e)
                  (extend st [Call_messageTelegram logData])
                = (Return tt, extend st (Call_messageTelegram logData :: tail))
                /\ quiet tail).
    { intros e; unfold console_error, log; eexists; rewrite extend_extend.
      split; reflexivity. }
    rewrite (bind_Return _ _ _ _ _ (get_Return _ _ _ N)), bind_lift.
    destruct (ToString (prop logData "message")) as [m|e]; [|apply caught].
    rewrite (bind_Return _ _ _ _ _ (get_Return _ _ _ N)), bind_lift.
    destruct (ToString (prop logData "service")) as [s|e]; [|apply caught].
    rewrite (bind_Return _ _ _ _ _ (get_Return _ _ _ N)), bind_lift.
    destruct (ToString (prop logData "instance")) as [i|e]; [|apply caught].
    rewrite (bind_Return _ _ _ _ _ (get_Return _ _ _ N)), bind_lift.
    destruct (ToString (prop logData "level")) as [l|e]; [|apply caught].
    match goal with |- context [notifyTextTelegram ?t ?s] =>
      destruct (notifyTextTelegram_spec t s) as (tail & E & Q) end.
    rewrite E; exists tail; split; [|exact Q].
    now rewrite extend_extend.
Qed.

End Facts.

(** ** The ingestion pipeline *)

Section Pipeline.

Context {R : Runtime}.

Lemma missing_fields_not_nullish (payload : value) :
  missing_fields payload = false -> nullish payload = false.
Proof.
  unfold missing_fields; intros H.
  destruct payload; simpl in *; try discriminate; reflexivity.
Qed.

Lemma handleApiRequest_unfold (requestId payload : value) (st : state) :
  nullish payload = false ->
  handleApiRequest requestId payload st
  = (if missing_fields payload
     then ret (nack requestId "MissingField"
                 "Missing fields in payload: service, instance, level, message")
     else
       G_DB_run insert_sql (row_of payload) ;;
       high <- lift (js_ge (prop payload "level") num_three) ;;
       (if (high : bool) then messageTelegram payload else ret tt) ;;
       ret (ack requestId))
      (extend st [Call_handleApiRequest requestId payload]).
Proof.
  intros N; unfold handleApiRequest, bind at 1, log.
  unfold bind at 1, destructure4; rewrite N; reflexivity.
Qed.

(** A payload that fails the field test is answered with the nack, without
    any other effect. *)
Lemma handleApiRequest_missing (requestId payload : value) (st : state) :
  nullish payload = false ->
  missing_fields payload = true ->
  handleApiRequest requestId payload st
  = (Return (nack requestId "MissingField"
               "Missing fields in payload: service, instance, level, message"),
     extend st [Call_handleApiRequest requestId payload]).
Proof.
  intros N H; rewrite handleApiRequest_unfold by exact N; now rewrite H.
Qed.

Lemma G_DB_run_handle (d : D1Database) (sql : string) (binds : list value) (st : state) :
  G_DB st = DbHandle d ->
  G_DB_run sql binds st
  = (match d1_run d (trace st) sql binds with
     | None => Return tt
     | Some m => Throw m
     end, extend st [D1Run sql binds]).
Proof.
  intros H; unfold G_DB_run; rewrite H.
  now destruct (d1_run d (trace st) sql binds).
Qed.

(** A payload that passes the field test, with the insert resolving and the
    comparison of the level answering [high]. *)
Lemma handleApiRequest_stored (requestId payload : value) (st : state) (d : D1Database)
    (high : bool) :
  missing_fields payload = false ->
  G_DB st = DbHandle d ->
  d1_run d (trace st ++ [Call_handleApiRequest requestId payload]) insert_sql
    (row_of payload) = None ->
  js_ge (prop payload "level") num_three = Return high ->
  exists tail,
    handleApiRequest requestId payload st
    = (Return (ack requestId),
       extend st (Call_handleApiRequest requestId payload
                  :: D1Run insert_sql (row_of payload)
                  :: (if high then Call_messageTelegram payload :: tail else [])))
    /\ quiet tail.
Proof.
  intros V HDB Hrun Hge.
  rewrite handleApiRequest_unfold by now apply missing_fields_not_nullish.
  rewrite V.
  erewrite bind_Return
    by (rewrite G_DB_run_handle with (d := d) by exact HDB; simpl; rewrite Hrun; reflexivity).
  rewrite extend_extend, bind_lift, Hge.
  destruct high.
  - match goal with |- context [bind _ _ ?s] =>
      destruct (messageTelegram_spec payload s) as (tail & E & Q) end.
    exists tail; split; [|exact Q].
    erewrite bind_Return by exact E.
    unfold ret; now rewrite extend_extend.
  - exists []; split; [|reflexivity].
    unfold bind, ret; reflexivity.
Qed.

(** A payload that passes the field test, with the insert rejecting: the error
    leaves the pipeline. *)
Lemma handleApiRequest_rejected (requestId payload : value) (st : state)
    (d : D1Database) (m : string) :
  missing_fields payload = false ->
  G_DB st = DbHandle d ->
  d1_run d (trace st ++ [Call_handleApiRequest requestId payload]) insert_sql
    (row_of payload) = Some m ->
  handleApiRequest requestId payload st
  = (Throw m,
     extend st [Call_handleApiRequest requestId payload;
                D1Run insert_sql (row_of payload)]).
Proof.
  intros V HDB Hrun.
  rewrite handleApiRequest_unfold by now apply missing_fields_not_nullish.
  rewrite V.
  erewrite bind_Throw
    by (rewrite G_DB_run_handle with (d := d) by exact HDB; simpl; rewrite Hrun; reflexivity).
  now rewrite extend_extend.
Qed.

(** A payload that passes the field test, with the insert resolving and a
    level that does not convert to a number: the TypeError of [level >= 3]
    leaves the pipeline, after the insert. *)
Lemma handleApiRequest_uncoercible (requestId payload : value) (st : state)
    (d : D1Database) (m : string) :
  missing_fields payload = false ->
  G_DB st = DbHandle d ->
  d1_run d (trace st ++ [Call_handleApiRequest requestId payload]) insert_sql
    (row_of payload) = None ->
  js_ge (prop payload "level") num_three = Throw m ->
  handleApiRequest requestId payload st
  = (Throw m,
     extend st [Call_handleApiRequest requestId payload;
                D1Run insert_sql (row_of payload)]).
Proof.
  intros V HDB Hrun Hge.
  rewrite handleApiRequest_unfold by now apply missing_fields_not_nullish.
  rewrite V.
  erewrite bind_Return
    by (rewrite G_DB_run_handle with (d := d) by exact HDB; simpl; rewrite Hrun; reflexivity).
  rewrite extend_extend, bind_lift, Hge; reflexivity.
Qed.

End Pipeline.

(** ** Claims about the pipeline *)

Section PipelineClaims.

Context {R : Runtime}.

Lemma js_ge_defined (v : value) (n : number) :
  js_ge v n = Return true -> is_undefined v = false.
Proof. destruct v; simpl; intros H; try reflexivity; discriminate H. Qed.

(** A falsy level other than [undefined] converts, to a number below 3. *)
Lemma falsy_level_below_three (v : value) :
  truthy v = false -> is_undefined v = false -> js_ge v num_three = Return false.
Proof.
  destruct v as [| |b|n|s|f|l]; simpl; intros T U; try discriminate; try reflexivity.
  - destruct b; [discriminate|reflexivity].
  - destruct n as [sg|sg| |sg m e]; try discriminate; reflexivity.
  - apply negb_false_iff, String.eqb_eq in T; subst s.
    unfold js_ge; simpl; rewrite StringToNumber_empty; reflexivity.
Qed.

Lemma valid_fields (payload : value) :
  truthy (prop payload "service") = true ->
  truthy (prop payload "instance") = true ->
  is_undefined (prop payload "level") = false ->
  truthy (prop payload "message") = true ->
  missing_fields payload = false.
Proof. unfold missing_fields; intros -> -> -> ->; reflexivity. Qed.

(** C2.  A payload whose service, instance and message are truthy (non-empty
    strings in particular) and whose level is at least 3 ([level >= 3]
    evaluates to true), with the insert
    resolving: the pipeline returns the ack, and among the events it adds the
    storage calls and notification-sender invocations are exactly one insert
    followed by one [messageTelegram] call.  This holds for every behaviour of
    the transport ([fetch_outcome] is arbitrary, a rejecting one included). *)
Theorem C2_high_level_store_then_notify
    (requestId payload : value) (st : state) (d : D1Database) :
  truthy (prop payload "service") = true ->
  truthy (prop payload "instance") = true ->
  truthy (prop payload "message") = true ->
  js_ge (prop payload "level") num_three = Return true ->
  G_DB st = DbHandle d ->
  d1_run d (trace st ++ [Call_handleApiRequest requestId payload]) insert_sql
    (row_of payload) = None ->
  exists delta,
    handleApiRequest requestId payload st = (Return (ack requestId), extend st delta)
    /\ filter (fun e => is_storage_call e || is_notification_call e) delta
       = [D1Run insert_sql (row_of payload); Call_messageTelegram payload].
Proof.
  intros Hs Hi Hm Hl HDB Hrun.
  assert (V : missing_fields payload = false)
    by (apply valid_fields; auto; eapply js_ge_defined; eauto).
  destruct (handleApiRequest_stored requestId payload st d true V HDB Hrun Hl)
    as (tail & E & Q).
  eexists; split; [exact E|].
  simpl. f_equal. f_equal.
  apply quiet_filter; [|exact Q].
  intros e; destruct e; simpl; congruence.
Qed.

(** C10.  With service, instance and message truthy and the insert resolving,
    the level check of the pipeline rejects only [undefined]: for that level
    the MissingField nack is answered without any storage call, and every
    other level passes the check and is stored as it is (the pipeline then
    returns the ack, unless the comparison [level >= 3] itself throws).  In
    particular a falsy level other than [undefined] ([null], [false], [0],
    [NaN], the empty string) is stored and acknowledged, and nothing else
    happens: no notification. *)
Theorem C10_level_check_rejects_only_undefined
    (requestId payload : value) (st : state) (d : D1Database) :
  truthy (prop payload "service") = true ->
  truthy (prop payload "instance") = true ->
  truthy (prop payload "message") = true ->
  G_DB st = DbHandle d ->
  d1_run d (trace st ++ [Call_handleApiRequest requestId payload]) insert_sql
    (row_of payload) = None ->
  (is_undefined (prop payload "level") = true ->
   handleApiRequest requestId payload st
   = (Return (nack requestId "MissingField"
                "Missing fields in payload: service, instance, level, message"),
      extend st [Call_handleApiRequest requestId payload]))
  /\ (is_undefined (prop payload "level") = false ->
      truthy (prop payload "level") = false ->
      handleApiRequest requestId payload st
      = (Return (ack requestId),
         extend st [Call_handleApiRequest requestId payload;
                    D1Run insert_sql
                      [prop payload "service"; prop payload "instance";
                       prop payload "level"; prop payload "message"]]))
  /\ (is_undefined (prop payload "level") = false ->
      exists o tail,
        handleApiRequest requestId payload st
        = (o,
           extend st (Call_handleApiRequest requestId payload
                      :: D1Run insert_sql
                           [prop payload "service"; prop payload "instance";
                            prop payload "level"; prop payload "message"]
                      :: tail))
        /\ filter is_storage_call tail = []
        /\ (o = Return (ack requestId)
            \/ (exists m,
                  js_ge (prop payload "level") num_three = Throw m
                  /\ o = Throw m /\ tail = []))).
Proof.
  intros Hs Hi Hm HDB Hrun; split; [|split]; intros U.
  - apply handleApiRequest_missing.
    + eapply truthy_prop_not_nullish; eauto.
    + unfold missing_fields; rewrite U, Hs, Hi; reflexivity.
  - intros F.
    assert (V : missing_fields payload = false) by (apply valid_fields; auto).
    destruct (handleApiRequest_stored requestId payload st d false V HDB Hrun
                (falsy_level_below_three _ F U)) as (tail & E & _).
    exact E.
  - assert (V : missing_fields payload = false) by (apply valid_fields; auto).
    destruct (js_ge (prop payload "level") num_three) as [high|m] eqn:G.
    + destruct (handleApiRequest_stored requestId payload st d high V HDB Hrun G)
        as (tail & E & Q).
      exists (Return (ack requestId)).
      exists (if high then Call_messageTelegram payload :: tail else []).
      split; [exact E|]; split; [|left; reflexivity].
      destruct high; [|reflexivity].
      simpl; apply quiet_filter; [|exact Q].
      intros e; destruct e; simpl; congruence.
    + exists (Throw m), []; split; [|split; [reflexivity|right; exists m; auto]].
      exact (handleApiRequest_uncoercible requestId payload st d m V HDB Hrun G).
Qed.

End PipelineClaims.

Lemma C2_witness :
  exists delta,
    @handleApiRequest ex_runtime (VStr "r-1") (ex_payload (VNum num_five)) (ex_state ex_db)
    = (Return (ack (VStr "r-1")), extend (ex_state ex_db) delta)
    /\ filter (fun e => is_storage_call e || is_notification_call e) delta
       = [D1Run insert_sql (row_of (ex_payload (VNum num_five)));
          Call_messageTelegram (ex_payload (VNum num_five))].
Proof.
  apply (@C2_high_level_store_then_notify ex_runtime (VStr "r-1")
           (ex_payload (VNum num_five)) (ex_state ex_db) ex_db); reflexivity.
Defined.

Lemma C10_witness :
  @handleApiRequest ex_runtime (VStr "r-1") (ex_payload VNull) (ex_state ex_db)
  = (Return (ack (VStr "r-1")),
     extend (ex_state ex_db)
       [Call_handleApiRequest (VStr "r-1") (ex_payload VNull);
        D1Run insert_sql [VStr "billing"; VStr "eu-1"; VNull; VStr "disk full"]]).
Proof.
  apply (proj1 (proj2 (@C10_level_check_rejects_only_undefined ex_runtime (VStr "r-1")
                         (ex_payload VNull) (ex_state ex_db) ex_db
                         eq_refl eq_refl eq_refl eq_refl eq_refl)));
    reflexivity.
Defined.

(** ** The Direct API handler *)

Section DirectApi.

Context {R : Runtime}.

Lemma falsy_prop (v : value) (k : string) : truthy v = false -> prop v k = VUndefined.
Proof. destruct v; simpl; congruence. Qed.

Lemma api_authorized_inv (request : Request) (env : Env) :
  api_authorized request env = true ->
  truthy_opt (header_Authorization request) = true
  /\ startsWith (opt_to_string (header_Authorization request)) "Bearer " = true
  /\ opt_string_eqb (nth_error (split_space (opt_to_string (header_Authorization request))) 1)
       (DA_WRITETOKEN env) = true.
Proof.
  unfold api_authorized, well_formed_authorization, bearer_token; intros H.
  apply andb_prop in H; destruct H as [H1 H3].
  apply andb_prop in H1; destruct H1 as [H1 H2]; auto.
Qed.

Lemma handleApi_invalid_json (request : Request) (env : Env) (st : state) (m : string) :
  api_authorized request env = true ->
  JSON_parse (body_text request) = inr m ->
  handleApi request env st
  = (Return (nack (VStr "unknown") "INVALID_JSON" "Malformed JSON body"),
     extend st [ReadBody]).
Proof.
  intros A P; destruct (api_authorized_inv _ _ A) as (A1 & A2 & A3).
  unfold handleApi; rewrite A1, A2, A3; simpl.
  unfold bind, try_catch, request_json, JSON_parse_M, log; simpl.
  rewrite P; reflexivity.
Qed.

(** Past the credential test and the parse, the handler is the field test on
    [payload.message] followed by the guarded pipeline call. *)
Lemma handleApi_parsed (request : Request) (env : Env) (st : state) (b : value) :
  api_authorized request env = true ->
  JSON_parse (body_text request) = inl b ->
  nullish b = false ->
  handleApi request env st
  = if truthy (prop (prop b "payload") "message")
    then
      try_catch (handleApiRequest (request_id_of b) (prop b "payload"))
        (fun err =>
           errDelegate ("handleApiRequest failed: " ++ err) ;;
           ret (nack (request_id_of b) "DB_ERROR" err))
        (with_env env (extend st [ReadBody]))
    else
      (Return (nack (request_id_of b) "INVALID_FIELD"
                 "Missing required field: payload.message"),
       extend st [ReadBody]).
Proof.
  intros A P N; destruct (api_authorized_inv _ _ A) as (A1 & A2 & A3).
  unfold handleApi; rewrite A1, A2, A3; cbn [negb orb].
  unfold bind at 1, try_catch at 1, bind at 1, request_json, bind at 1, JSON_parse_M, log.
  rewrite P; unfold ret at 1 2.
  rewrite (bind_Return _ _ _ _ _ (get_Return b "request_id" _ N)).
  rewrite (bind_Return _ _ _ _ _ (get_Return b "payload" _ N)).
  fold (request_id_of b).
  destruct (truthy (prop b "payload")) eqn:T.
  - cbn [negb]; unfold bind at 1; unfold bind at 1; unfold get at 1.
    rewrite (truthy_not_nullish _ T); unfold ret at 1 2.
    destruct (truthy (prop (prop b "payload") "message")); reflexivity.
  - rewrite (falsy_prop _ "message" T); reflexivity.
Qed.

(** What the pipeline hands back: the ack, the MissingField nack, or an error. *)
Lemma handleApiRequest_result (requestId payload : value) (st : state) :
  exists o delta,
    handleApiRequest requestId payload st = (o, extend st delta)
    /\ (o = Return (ack requestId)
        \/ o = Return (nack requestId "MissingField"
                         "Missing fields in payload: service, instance, level, message")
        \/ exists m, o = Throw m).
Proof.
  destruct (nullish payload) eqn:N.
  - unfold handleApiRequest, bind, log, destructure4; rewrite N; unfold throw.
    eexists; eexists; split; [reflexivity|]; right; right; eexists; reflexivity.
  - rewrite handleApiRequest_unfold by exact N.
    destruct (missing_fields payload).
    + eexists; eexists; split; [reflexivity|]; right; left; reflexivity.
    + unfold bind at 1, G_DB_run; simpl G_DB; simpl trace.
      destruct (G_DB st) as [| |d].
      * eexists; eexists; split; [reflexivity|]; right; right; eexists; reflexivity.
      * eexists; eexists; split; [reflexivity|]; right; right; eexists; reflexivity.
      * destruct (d1_run d _ _ _) as [m|].
        -- rewrite extend_extend.
           eexists; eexists; split; [reflexivity|]; right; right; eexists; reflexivity.
        -- rewrite extend_extend, bind_lift.
           destruct (js_ge (prop payload "level") num_three) as [[|]|m'].
           ++ match goal with |- context [bind _ _ ?s] =>
                destruct (messageTelegram_spec payload s) as (tail & E & Q) end.
              erewrite bind_Return by exact E.
              unfold bind, ret; rewrite extend_extend.
              eexists; eexists; split; [reflexivity|]; left; reflexivity.
           ++ unfold bind, ret.
              eexists; eexists; split; [reflexivity|]; left; reflexivity.
           ++ eexists; eexists; split; [reflexivity|]; right; right; eexists; reflexivity.
Qed.

End DirectApi.

Section DirectApiClaims.

Context {R : Runtime}.

Lemma opt_string_eqb_eq (a b : option string) : opt_string_eqb a b = true <-> a = b.
Proof.
  destruct a as [x|], b as [y|]; simpl; split; intros H;
    try discriminate; try reflexivity.
  - apply String.eqb_eq in H; congruence.
  - apply String.eqb_eq; congruence.
Qed.

Lemma opt_string_eqb_neq (a b : option string) : a <> b -> opt_string_eqb a b = false.
Proof.
  intros H; destruct (opt_string_eqb a b) eqn:E; [|reflexivity].
  apply opt_string_eqb_eq in E; contradiction.
Qed.

Lemma startsWith_Bearer_truthy (a : string) :
  startsWith a "Bearer " = true -> truthy_opt (Some a) = true.
Proof. destruct a; simpl; [discriminate|reflexivity]. Qed.

Lemma prop_not_nullish (v : value) (k : string) :
  nullish (prop v k) = false -> nullish v = false.
Proof. destruct v; simpl; congruence. Qed.

Lemma handleApi_malformed_authorization (request : Request) (env : Env) (st : state) :
  well_formed_authorization (header_Authorization request) = false ->
  handleApi request env st
  = (Return (nack (VStr "unknown") "UNAUTHORIZED"
               "Missing or invalid Authorization header"), st).
Proof.
  unfold well_formed_authorization, handleApi; intros H.
  apply andb_false_iff in H; destruct H as [H|H]; rewrite H; cbn [negb orb].
  - reflexivity.
  - rewrite orb_true_r; reflexivity.
Qed.

Lemma handleApi_wrong_token (request : Request) (env : Env) (st : state) :
  well_formed_authorization (header_Authorization request) = true ->
  opt_string_eqb (bearer_token (header_Authorization request)) (DA_WRITETOKEN env) = false ->
  handleApi request env st
  = (Return (nack (VStr "unknown") "INVALID_TOKEN" "Token authentication failed"), st).
Proof.
  unfold well_formed_authorization, bearer_token, handleApi; intros W T.
  apply andb_prop in W; destruct W as [W1 W2].
  rewrite W1, W2, T; reflexivity.
Qed.

Lemma handleApi_null_body (request : Request) (env : Env) (st : state) (b : value) :
  api_authorized request env = true ->
  JSON_parse (body_text request) = inl b ->
  nullish b = true ->
  handleApi request env st = (Throw (type_error_read b "request_id"), extend st [ReadBody]).
Proof.
  intros A P N; destruct (api_authorized_inv _ _ A) as (A1 & A2 & A3).
  unfold handleApi; rewrite A1, A2, A3; cbn [negb orb].
  unfold bind at 1, try_catch at 1, bind at 1, request_json, bind at 1, JSON_parse_M, log.
  rewrite P; unfold ret at 1 2.
  unfold bind, get; rewrite N; reflexivity.
Qed.

(** C1.  A request that passed the credential test, whose body parses as JSON
    (not the JSON [null], which has no payload) and whose payload fails the
    field test (service, instance or message falsy or absent, or level
    [undefined]): the response is the nack, with code [INVALID_FIELD] when
    [payload.message] itself is missing and [MissingField] otherwise, and the
    handler adds no storage call. *)
Theorem C1_missing_field_nack_no_insert
    (request : Request) (env : Env) (st : state) (b : value) :
  api_authorized request env = true ->
  JSON_parse (body_text request) = inl b ->
  nullish b = false ->
  missing_fields (prop b "payload") = true ->
  exists delta,
    result_of (handleApi request env) st
    = Return
        (if truthy (prop (prop b "payload") "message")
         then nack (request_id_of b) "MissingField"
                "Missing fields in payload: service, instance, level, message"
         else nack (request_id_of b) "INVALID_FIELD"
                "Missing required field: payload.message")
    /\ trace_of (handleApi request env) st = (trace st ++ delta)%list
    /\ filter is_storage_call delta = [].
Proof.
  intros A P N Mi; unfold result_of, trace_of.
  rewrite (handleApi_parsed request env st b A P N).
  destruct (truthy (prop (prop b "payload") "message")) eqn:T.
  - unfold try_catch.
    rewrite handleApiRequest_missing
      by (auto; eapply truthy_prop_not_nullish; exact T).
    exists [ReadBody; Call_handleApiRequest (request_id_of b) (prop b "payload")].
    simpl; rewrite <- app_assoc; auto.
  - exists [ReadBody]; simpl; auto.
Qed.

(** C5.  A missing [Authorization] header, or one that does not start with
    ["Bearer "], is answered with the [UNAUTHORIZED] nack under request id
    ["unknown"], the state untouched (the body is not read); a well-formed
    header whose token differs from the configured write-token is answered
    with the [INVALID_TOKEN] nack; and every nack the handler returns,
    whichever step produced it, has status 400. *)
Theorem C5_authorization_failures_and_nack_status
    (request : Request) (env : Env) (st : state) :
  (header_Authorization request = None
   \/ (exists a, header_Authorization request = Some a /\ startsWith a "Bearer " = false) ->
   handleApi request env st
   = (Return (nack (VStr "unknown") "UNAUTHORIZED"
                "Missing or invalid Authorization header"), st))
  /\ (forall a,
        header_Authorization request = Some a ->
        startsWith a "Bearer " = true ->
        bearer_token (Some a) <> DA_WRITETOKEN env ->
        handleApi request env st
        = (Return (nack (VStr "unknown") "INVALID_TOKEN" "Token authentication failed"),
           st))
  /\ (forall response,
        result_of (handleApi request env) st = Return response ->
        is_nack response = true ->
        status response = 400)
  /\ (forall requestId code message, status (nack requestId code message) = 400).
Proof.
  split; [|split; [|split]].
  - intros H; apply handleApi_malformed_authorization.
    unfold well_formed_authorization.
    destruct H as [H|(a & H & S)]; rewrite H; simpl; [reflexivity|].
    rewrite S; apply andb_false_r.
  - intros a H S T; apply handleApi_wrong_token.
    + unfold well_formed_authorization; rewrite H.
      rewrite (startsWith_Bearer_truthy a S); simpl; exact S.
    + rewrite H; apply opt_string_eqb_neq; exact T.
  - intros response; unfold result_of.
    destruct (well_formed_authorization (header_Authorization request)) eqn:W;
      [|rewrite handleApi_malformed_authorization by exact W; simpl;
        intros E _; inversion E; reflexivity].
    destruct (opt_string_eqb (bearer_token (header_Authorization request))
                (DA_WRITETOKEN env)) eqn:T;
      [|rewrite handleApi_wrong_token by assumption; simpl;
        intros E _; inversion E; reflexivity].
    assert (A : api_authorized request env = true)
      by (unfold api_authorized; rewrite W, T; reflexivity).
    destruct (JSON_parse (body_text request)) as [b|m] eqn:P;
      [|rewrite (handleApi_invalid_json request env st m A P); simpl;
        intros E _; inversion E; reflexivity].
    destruct (nullish b) eqn:N;
      [rewrite (handleApi_null_body request env st b A P N); simpl; discriminate|].
    rewrite (handleApi_parsed request env st b A P N).
    destruct (truthy (prop (prop b "payload") "message"));
      [|simpl; intros E _; inversion E; reflexivity].
    unfold try_catch.
    destruct (handleApiRequest_result (request_id_of b) (prop b "payload")
                (with_env env (extend st [ReadBody]))) as (o & delta & E & Ho).
    rewrite E.
    destruct Ho as [->|[->|(m & ->)]].
    + simpl; intros Er Hn; inversion Er; subst response; discriminate Hn.
    + simpl; intros Er _; inversion Er; reflexivity.
    + destruct (errDelegate_spec ("handleApiRequest failed: " ++ m)
                  (extend (with_env env (extend st [ReadBody])) delta))
        as (tail & Ed & _).
      erewrite bind_Return by exact Ed.
      simpl; intros Er _; inversion Er; reflexivity.
  - reflexivity.
Qed.

(** C7.  A payload with level 0 and service, instance and message truthy
    (non-empty strings in particular), sent by a request that passed the
    credential test and with the insert resolving, is accepted: the handler
    returns the ack and adds exactly the body read, the pipeline call and one
    insert of the four fields; no notification, no error report. *)
Theorem C7_level_zero_accepted
    (request : Request) (env : Env) (st : state) (b : value) (d : D1Database) (sg : bool) :
  api_authorized request env = true ->
  JSON_parse (body_text request) = inl b ->
  truthy (prop (prop b "payload") "service") = true ->
  truthy (prop (prop b "payload") "instance") = true ->
  truthy (prop (prop b "payload") "message") = true ->
  prop (prop b "payload") "level" = VNum (S754_zero sg) ->
  DB env = Some d ->
  d1_run d (trace st ++ [ReadBody;
                         Call_handleApiRequest (request_id_of b) (prop b "payload")])
    insert_sql (row_of (prop b "payload")) = None ->
  result_of (handleApi request env) st = Return (ack (request_id_of b))
  /\ trace_of (handleApi request env) st
     = (trace st ++ [ReadBody;
                     Call_handleApiRequest (request_id_of b) (prop b "payload");
                     D1Run insert_sql (row_of (prop b "payload"))])%list.
Proof.
  intros A P Hs Hi Hm Hl HDB Hrun; unfold result_of, trace_of.
  assert (Np : nullish (prop b "payload") = false)
    by (eapply truthy_prop_not_nullish; exact Hs).
  assert (N : nullish b = false) by (eapply prop_not_nullish; exact Np).
  rewrite (handleApi_parsed request env st b A P N), Hm.
  assert (V : missing_fields (prop b "payload") = false)
    by (apply valid_fields; auto; rewrite Hl; reflexivity).
  unfold try_catch.
  destruct (handleApiRequest_stored (request_id_of b) (prop b "payload")
              (with_env env (extend st [ReadBody])) d false V) as (tail & E & Q).
  - unfold with_env; simpl; rewrite HDB; reflexivity.
  - simpl; rewrite <- app_assoc; exact Hrun.
  - rewrite Hl; reflexivity.
  - rewrite E; simpl; split; [reflexivity|].
    rewrite <- app_assoc; reflexivity.
Qed.

End DirectApiClaims.

Lemma C1_witness :
  exists delta,
    result_of (@handleApi ex_runtime
                 (ex_api_request (Some "Bearer write-token")
                    (ex_api_text ex_payload_no_level_text))
                 (ex_env (Some ex_db))) initial_state
    = Return (nack (VStr "r-1") "MissingField"
                "Missing fields in payload: service, instance, level, message")
    /\ trace_of (@handleApi ex_runtime
                   (ex_api_request (Some "Bearer write-token")
                      (ex_api_text ex_payload_no_level_text))
                   (ex_env (Some ex_db))) initial_state
       = ([] ++ delta)%list
    /\ filter is_storage_call delta = [].
Proof.
  exact (@C1_missing_field_nack_no_insert ex_runtime
           (ex_api_request (Some "Bearer write-token")
              (ex_api_text ex_payload_no_level_text))
           (ex_env (Some ex_db)) initial_state (ex_api_body ex_payload_no_level)
           eq_refl eq_refl eq_refl eq_refl).
Defined.

Lemma C5_witness :
  @handleApi ex_runtime (ex_api_request None (ex_api_text (ex_payload_text "0")))
    (ex_env (Some ex_db)) initial_state
  = (Return (nack (VStr "unknown") "UNAUTHORIZED"
               "Missing or invalid Authorization header"), initial_state)
  /\ @handleApi ex_runtime
       (ex_api_request (Some "Bearer stolen") (ex_api_text (ex_payload_text "0")))
       (ex_env (Some ex_db)) initial_state
     = (Return (nack (VStr "unknown") "INVALID_TOKEN" "Token authentication failed"),
        initial_state)
  /\ status (nack (VStr "r-1") "INVALID_FIELD" "Missing required field: payload.message")
     = 400.
Proof.
  split; [|split].
  - apply (proj1 (@C5_authorization_failures_and_nack_status ex_runtime
                    (ex_api_request None (ex_api_text (ex_payload_text "0")))
                    (ex_env (Some ex_db)) initial_state)).
    left; reflexivity.
  - apply (proj1 (proj2 (@C5_authorization_failures_and_nack_status ex_runtime
                    (ex_api_request (Some "Bearer stolen")
                       (ex_api_text (ex_payload_text "0")))
                    (ex_env (Some ex_db)) initial_state)) "Bearer stolen").
    + reflexivity.
    + reflexivity.
    + discriminate.
  - apply (proj2 (proj2 (@C5_authorization_failures_and_nack_status ex_runtime
                    (ex_api_request (Some "Bearer write-token")
                       (ex_api_text ex_payload_no_level_text))
                    (ex_env (Some ex_db)) initial_state))).
Defined.

Lemma C7_witness :
  result_of (@handleApi ex_runtime
               (ex_api_request (Some "Bearer write-token")
                  (ex_api_text (ex_payload_text "0")))
               (ex_env (Some ex_db))) initial_state
  = Return (ack (VStr "r-1"))
  /\ trace_of (@handleApi ex_runtime
                 (ex_api_request (Some "Bearer write-token")
                    (ex_api_text (ex_payload_text "0")))
                 (ex_env (Some ex_db))) initial_state
     = [ReadBody;
        Call_handleApiRequest (VStr "r-1") (ex_payload (VNum pos_zero));
        D1Run insert_sql [VStr "billing"; VStr "eu-1"; VNum pos_zero; VStr "disk full"]].
Proof.
  exact (@C7_level_zero_accepted ex_runtime
           (ex_api_request (Some "Bearer write-token")
              (ex_api_text (ex_payload_text "0")))
           (ex_env (Some ex_db)) initial_state
           (ex_api_body (ex_payload (VNum pos_zero))) ex_db false
           eq_refl eq_refl eq_refl eq_refl eq_refl eq_refl eq_refl eq_refl).
Defined.

(** ** The webhook handler *)

Section Webhook.

Context {R : Runtime}.

Lemma for_of_app {A} (xs ys : list A) (f : A -> M unit) (st : state) :
  for_of (xs ++ ys) f st = (for_of xs f ;; for_of ys f) st.
Proof.
  revert st; induction xs as [|x xs IH]; intros st; simpl; unfold bind in *.
  - reflexivity.
  - destruct (f x st) as [[[]|m] st']; [apply IH|reflexivity].
Qed.

Lemma not_storage_of_transport (e : event) : is_transport e = true -> is_storage_call e = false.
Proof. destruct e; simpl; congruence. Qed.

(** The loop body on a message whose [data] is present. *)
Lemma webhook_message_data (msg : value) (st : state) :
  nullish msg = false ->
  truthy (prop msg "data") = true ->
  webhook_message msg st
  = match JSON_parse_value (prop msg "data") with
    | inr err =>
        (errDelegate ("❌ Could not parse message.data JSON: " ++ err) ;; ret tt) st
    | inl msgpayload =>
        let payload := optional_prop msgpayload "payload" in
        if negb (truthy payload) || negb (String.eqb (typeof payload) "object")
        then (Return tt, st)
        else
          try_catch (handleApiRequest (VStr "unknow") payload ;; ret tt)
            (fun err =>
               errDelegate ("💥 handleApiRequest failed: " ++ err) ;;
               errDelegate ("Ably webhook failed: " ++ err)) st
    end.
Proof.
  intros N T; unfold webhook_message.
  rewrite (bind_Return _ _ _ _ _ (get_Return msg "data" st N)).
  rewrite T; cbn [negb].
  assert (caught : forall err,
            (parsed <- (errDelegate ("❌ Could not parse message.data JSON: " ++ err) ;;
                        ret (@None value)) ;;
             match parsed with
             | None => ret tt
             | Some msgpayload =>
                 let payload := optional_prop msgpayload "payload" in
                 if negb (truthy payload) || negb (String.eqb (typeof payload) "object")
                 then ret tt
                 else
                   try_catch (handleApiRequest (VStr "unknow") payload ;; ret tt)
                     (fun err =>
                        errDelegate ("💥 handleApiRequest failed: " ++ err) ;;
                        errDelegate ("Ably webhook failed: " ++ err))
             end) st
            = (errDelegate ("❌ Could not parse message.data JSON: " ++ err) ;; ret tt) st).
  { intros err.
    destruct (errDelegate_spec ("❌ Could not parse message.data JSON: " ++ err) st)
      as (tail & E & _).
    unfold bind at 1; rewrite !(bind_Return _ _ _ _ _ E); reflexivity. }
  unfold bind at 1, try_catch at 1; rewrite bind_lift; unfold JSON_parse_value.
  destruct (ToString (prop msg "data")) as [text|err]; [|apply caught].
  unfold bind at 1, JSON_parse_M.
  destruct (JSON_parse text) as [v|err]; [|apply caught].
  unfold ret at 1 2; cbv zeta.
  destruct (negb (truthy (optional_prop v "payload"))
            || negb (String.eqb (typeof (optional_prop v "payload")) "object"));
    reflexivity.
Qed.

Lemma webhook_message_no_data (msg : value) (st : state) :
  nullish msg = false ->
  truthy (prop msg "data") = false ->
  webhook_message msg st = (Return tt, st).
Proof.
  intros N T; unfold webhook_message.
  rewrite (bind_Return _ _ _ _ _ (get_Return msg "data" st N)).
  rewrite T; reflexivity.
Qed.

(** The guarded pipeline call of the loop body, by cases on what the pipeline does. *)
Lemma guarded_pipeline_Return (payload : value) (st st1 : state) (r : Response) :
  handleApiRequest (VStr "unknow") payload st = (Return r, st1) ->
  try_catch (handleApiRequest (VStr "unknow") payload ;; ret tt)
    (fun err =>
       errDelegate ("💥 handleApiRequest failed: " ++ err) ;;
       errDelegate ("Ably webhook failed: " ++ err)) st
  = (Return tt, st1).
Proof. intros E; unfold try_catch, bind; rewrite E; reflexivity. Qed.

Lemma guarded_pipeline_Throw (payload : value) (st st1 : state) (err : string) :
  handleApiRequest (VStr "unknow") payload st = (Throw err, st1) ->
  exists t1 t2,
    quiet t1 /\ quiet t2
    /\ try_catch (handleApiRequest (VStr "unknow") payload ;; ret tt)
         (fun err =>
            errDelegate ("💥 handleApiRequest failed: " ++ err) ;;
            errDelegate ("Ably webhook failed: " ++ err)) st
       = (Return tt,
          extend st1
            (Call_errDelegate ("💥 handleApiRequest failed: " ++ err)
             :: ConsoleError ("💥 handleApiRequest failed: " ++ err)
             :: t1
             ++ Call_errDelegate ("Ably webhook failed: " ++ err)
                :: ConsoleError ("Ably webhook failed: " ++ err)
                :: t2)).
Proof.
  intros E; unfold try_catch, bind at 1; rewrite E.
  destruct (errDelegate_spec ("💥 handleApiRequest failed: " ++ err) st1)
    as (t1 & E1 & Q1).
  rewrite (bind_Return _ _ _ _ _ E1).
  match goal with |- context [errDelegate ?t ?s] =>
    destruct (errDelegate_spec t s) as (t2 & E2 & Q2) end.
  exists t1, t2; split; [exact Q1|]; split; [exact Q2|].
  rewrite E2, extend_extend; reflexivity.
Qed.

End Webhook.

Section WebhookBatch.

Context {R : Runtime}.

(** The pipeline keeps the globals, reports no error itself, and issues the
    insert exactly when the payload passes the field test. *)
Lemma handleApiRequest_effects (requestId payload : value) (st : state) :
  nullish payload = false ->
  exists o delta,
    handleApiRequest requestId payload st = (o, extend st delta)
    /\ (forall d, G_DB st = DbHandle d ->
        filter is_storage_call delta
        = if missing_fields payload then [] else [D1Run insert_sql (row_of payload)]).
Proof.
  intros N; rewrite handleApiRequest_unfold by exact N.
  destruct (missing_fields payload).
  - eexists; eexists; split; [reflexivity|]; reflexivity.
  - unfold bind at 1, G_DB_run; simpl G_DB; simpl trace.
    destruct (G_DB st) as [| |d0].
    + eexists; eexists; split; [reflexivity|]; discriminate.
    + eexists; eexists; split; [reflexivity|]; discriminate.
    + destruct (d1_run d0 _ _ _) as [m|]; rewrite extend_extend.
      * eexists; eexists; split; [reflexivity|]; reflexivity.
      * rewrite bind_lift.
        destruct (js_ge (prop payload "level") num_three) as [[|]|m'].
        -- match goal with |- context [bind _ _ ?s] =>
             destruct (messageTelegram_spec payload s) as (tail & E & Q) end.
           erewrite bind_Return by exact E.
           unfold bind, ret; rewrite extend_extend.
           eexists; eexists; split; [reflexivity|].
           intros d _; simpl; f_equal.
           apply quiet_filter; [apply not_storage_of_transport|exact Q].
        -- unfold bind, ret.
           eexists; eexists; split; [reflexivity|]; reflexivity.
        -- eexists; eexists; split; [reflexivity|]; reflexivity.
Qed.

(** One turn of the loop on an element that is not [null]: it never throws,
    keeps the globals, and issues the insert of the message if there is one. *)
Lemma webhook_message_spec (msg : value) (st : state) :
  nullish msg = false ->
  exists delta,
    webhook_message msg st = (Return tt, extend st delta)
    /\ (forall d, G_DB st = DbHandle d -> filter is_storage_call delta = message_rows msg).
Proof.
  intros N; unfold message_rows.
  destruct (truthy (prop msg "data")) eqn:T; cbn [negb].
  - rewrite (webhook_message_data msg st N T).
    assert (caught : forall err,
              exists delta,
                (errDelegate ("❌ Could not parse message.data JSON: " ++ err) ;; ret tt) st
                = (Return tt, extend st delta)
                /\ (forall d : D1Database, G_DB st = DbHandle d ->
                    filter is_storage_call delta = [])).
    { intros err.
      destruct (errDelegate_spec ("❌ Could not parse message.data JSON: " ++ err) st)
        as (tail & E & Q).
      rewrite (bind_Return _ _ _ _ _ E); unfold ret.
      eexists; split; [reflexivity|].
      intros d _; simpl.
      apply (quiet_filter _ _ not_storage_of_transport Q). }
    unfold JSON_parse_value.
    destruct (ToString (prop msg "data")) as [text|err]; [|apply caught].
    destruct (JSON_parse text) as [v|err]; cbv zeta; [|apply caught].
    destruct (negb (truthy (optional_prop v "payload"))
                || negb (String.eqb (typeof (optional_prop v "payload")) "object")) eqn:G.
      * exists []; rewrite extend_nil; split; reflexivity.
      * apply orb_false_elim in G; destruct G as [G _].
        apply negb_false_iff in G.
        destruct (handleApiRequest_effects (VStr "unknow") (optional_prop v "payload") st
                    (truthy_not_nullish _ G)) as (o & delta & E & S).
        destruct o as [r|err].
        -- rewrite (guarded_pipeline_Return _ _ _ _ E).
           exists delta; split; [reflexivity|exact S].
        -- destruct (guarded_pipeline_Throw _ _ _ _ E) as (t1 & t2 & Q1 & Q2 & E').
           rewrite E', extend_extend.
           eexists; split; [reflexivity|].
           intros d Hd; rewrite filter_app, (S d Hd); simpl.
           rewrite filter_app; simpl.
           rewrite (quiet_filter _ _ not_storage_of_transport Q1).
           rewrite (quiet_filter _ _ not_storage_of_transport Q2).
           apply app_nil_r.
  - rewrite (webhook_message_no_data msg st N T).
    exists []; rewrite extend_nil; split; reflexivity.
Qed.

(** The loop over a batch without [null] elements runs to its end. *)
Lemma for_of_webhook_spec (msgs : list value) (st : state) :
  Forall (fun m => nullish m = false) msgs ->
  exists delta,
    for_of msgs webhook_message st = (Return tt, extend st delta)
    /\ (forall d, G_DB st = DbHandle d ->
        filter is_storage_call delta = flat_map message_rows msgs).
Proof.
  intros H; revert st; induction H as [|m msgs Hm Hall IH]; intros st; simpl.
  - exists []; rewrite extend_nil; split; reflexivity.
  - destruct (webhook_message_spec m st Hm) as (d1 & E1 & S1).
    destruct (IH (extend st d1)) as (d2 & E2 & S2).
    rewrite (bind_Return _ _ _ _ _ E1), E2, extend_extend.
    exists (d1 ++ d2)%list; split; [reflexivity|].
    intros d Hd; rewrite filter_app, (S1 d Hd), (S2 d Hd); reflexivity.
Qed.

Lemma try_catch_congr {A} (c c' : M A) (h : string -> M A) (st st' : state) :
  c st = c' st' -> try_catch c h st = try_catch c' h st'.
Proof. intros E; unfold try_catch; rewrite E; reflexivity. Qed.

Lemma messages_of_array_not_nullish (b : value) (msgs : list value) :
  messages_of b = VArr msgs -> nullish b = false.
Proof. destruct b; unfold messages_of; simpl; congruence. Qed.

Lemma webhook_authorized_inv (request : Request) (env : Env) :
  webhook_authorized request env = true ->
  truthy_opt (header_X_Ably_Auth request) = true
  /\ opt_string_eqb (header_X_Ably_Auth request) (ABLY_WEBHOOK_SECRET env) = true.
Proof. unfold webhook_authorized; intros H; apply andb_prop in H; exact H. Qed.

(** With the secret accepted, the body parsed and an array found under [items]
    or [messages], the handler is the loop inside the outer guard. *)
Lemma handleAblyWebhook_batch (request : Request) (env : Env) (st : state)
    (b : value) (msgs : list value) :
  webhook_authorized request env = true ->
  JSON_parse (body_text request) = inl b ->
  messages_of b = VArr msgs ->
  handleAblyWebhook request env st
  = try_catch
      (for_of msgs webhook_message ;; ret (text_response "OK" 200))
      (fun err =>
         errDelegate ("Webhook error: " ++ err) ;;
         ret (text_response "Internal Server Error" 500))
      (with_env env (extend st [ReadBody])).
Proof.
  intros A P Hm; destruct (webhook_authorized_inv _ _ A) as (A1 & A2).
  pose proof (messages_of_array_not_nullish b msgs Hm) as N.
  unfold handleAblyWebhook; apply try_catch_congr.
  rewrite A1, A2; cbn [negb orb].
  unfold bind at 1, request_text, bind at 1, log, ret at 1.
  unfold bind at 1, try_catch at 1, bind at 1, JSON_parse_M.
  rewrite P; unfold ret at 1 2.
  rewrite (bind_Return _ _ _ _ _ (get_Return b "items" _ N)).
  assert (E : (if truthy (prop b "items") then ret (prop b "items")
               else get b "messages") (extend st [ReadBody])
              = (Return (VArr msgs), extend st [ReadBody])).
  { rewrite <- Hm; unfold messages_of.
    destruct (truthy (prop b "items")); [reflexivity|].
    apply get_Return; exact N. }
  rewrite (bind_Return _ _ _ _ _ E); reflexivity.
Qed.

End WebhookBatch.

(** ** What a computation may add to the trace *)

Section Emits.

Context {R : Runtime}.

Variable P : event -> Prop.

Lemma emits_ret {A} (a : A) : emits P (ret a).
Proof. intros st; exists []; simpl; rewrite app_nil_r; auto. Qed.

Lemma emits_throw {A} (m : string) : emits P (@throw A m).
Proof. intros st; exists []; simpl; rewrite app_nil_r; auto. Qed.

Lemma emits_bind {A B} (c : M A) (k : A -> M B) :
  emits P c -> (forall a, emits P (k a)) -> emits P (bind c k).
Proof.
  intros Hc Hk st; unfold bind.
  destruct (Hc st) as (d1 & E1 & F1).
  destruct (c st) as [[a|m] st']; simpl in E1.
  - destruct (Hk a st') as (d2 & E2 & F2).
    exists (d1 ++ d2)%list; rewrite E2, E1, app_assoc; split; [reflexivity|].
    apply Forall_app; auto.
  - exists d1; auto.
Qed.

Lemma emits_try_catch {A} (c : M A) (h : string -> M A) :
  emits P c -> (forall m, emits P (h m)) -> emits P (try_catch c h).
Proof.
  intros Hc Hh st; unfold try_catch.
  destruct (Hc st) as (d1 & E1 & F1).
  destruct (c st) as [[a|m] st']; simpl in E1.
  - exists d1; auto.
  - destruct (Hh m st') as (d2 & E2 & F2).
    exists (d1 ++ d2)%list; rewrite E2, E1, app_assoc; split; [reflexivity|].
    apply Forall_app; auto.
Qed.

Lemma emits_log (e : event) : P e -> emits P (log e).
Proof. intros He st; exists [e]; simpl; auto. Qed.

Lemma emits_lift {A} (o : outcome A) : emits P (lift o).
Proof. intros st; exists []; simpl; rewrite app_nil_r; auto. Qed.

Lemma emits_get (v : value) (k : string) : emits P (get v k).
Proof. unfold get; destruct (nullish v); [apply emits_throw|apply emits_ret]. Qed.

Lemma emits_set_G_ENV (env : Env) : emits P (set_G_ENV env).
Proof. intros st; exists []; simpl; rewrite app_nil_r; auto. Qed.

Lemma emits_set_G_DB (d : option D1Database) : emits P (set_G_DB d).
Proof. intros st; exists []; simpl; rewrite app_nil_r; auto. Qed.

Lemma emits_JSON_parse_M (text : string) : emits P (JSON_parse_M text).
Proof.
  unfold JSON_parse_M; destruct (JSON_parse text); [apply emits_ret|apply emits_throw].
Qed.

Lemma emits_for_of {A} (xs : list A) (f : A -> M unit) :
  (forall x, emits P (f x)) -> emits P (for_of xs f).
Proof.
  intros Hf; induction xs as [|x xs IH]; simpl.
  - apply emits_ret.
  - apply emits_bind; auto.
Qed.

(** From here on, [P] holds of every event that is not a pipeline call. *)
Hypothesis P_other : forall e, is_pipeline_call e = false -> P e.

Lemma quiet_Forall (l : list event) : quiet l -> Forall P l.
Proof.
  unfold quiet; induction l as [|e l IH]; simpl; intros H; [constructor|].
  apply andb_prop in H; destruct H as [He Hl]; constructor; auto.
  apply P_other; destruct e; simpl in *; congruence.
Qed.

Lemma emits_errDelegate (msg : string) : emits P (errDelegate msg).
Proof.
  intros st; destruct (errDelegate_spec msg st) as (tail & E & Q).
  rewrite E; eexists; split; [reflexivity|].
  repeat constructor; try (apply P_other; reflexivity).
  apply quiet_Forall; exact Q.
Qed.

Lemma emits_messageTelegram (logData : value) : emits P (messageTelegram logData).
Proof.
  intros st; destruct (messageTelegram_spec logData st) as (tail & E & Q).
  rewrite E; eexists; split; [reflexivity|].
  constructor; [apply P_other; reflexivity|apply quiet_Forall; exact Q].
Qed.

Lemma emits_G_DB_run (sql : string) (binds : list value) : emits P (G_DB_run sql binds).
Proof.
  intros st; unfold G_DB_run.
  destruct (G_DB st) as [| |d].
  - exists []; simpl; rewrite app_nil_r; auto.
  - exists []; simpl; rewrite app_nil_r; auto.
  - exists [D1Run sql binds].
    destruct (d1_run d (trace st) sql binds); simpl; split; auto;
      constructor; auto; apply P_other; reflexivity.
Qed.

Lemma emits_handleApiRequest (requestId payload : value) :
  P (Call_handleApiRequest requestId payload) ->
  emits P (handleApiRequest requestId payload).
Proof.
  intros Hcall; unfold handleApiRequest.
  apply emits_bind; [apply emits_log; exact Hcall|intros _].
  apply emits_bind.
  - unfold destructure4; destruct (nullish payload); [apply emits_throw|apply emits_ret].
  - intros [[[service instance] level] message].
    destruct (negb (truthy service) || negb (truthy instance) || is_undefined level
              || negb (truthy message)); [apply emits_ret|].
    apply emits_bind; [apply emits_G_DB_run|intros _].
    apply emits_bind; [apply emits_lift|intros high].
    apply emits_bind; [|intros _; apply emits_ret].
    destruct high; [apply emits_messageTelegram|apply emits_ret].
Qed.

Lemma emits_webhook_message (msg : value) :
  (forall payload, P (Call_handleApiRequest (VStr "unknow") payload)) ->
  emits P (webhook_message msg).
Proof.
  intros Hcall; unfold webhook_message.
  apply emits_bind; [apply emits_get|intros data].
  destruct (negb (truthy data)); [apply emits_ret|].
  apply emits_bind.
  - apply emits_try_catch.
    + apply emits_bind; [apply emits_lift|intros text].
      apply emits_bind; [apply emits_JSON_parse_M|intros v; apply emits_ret].
    + intros err; apply emits_bind; [apply emits_errDelegate|intros _; apply emits_ret].
  - intros [msgpayload|]; [|apply emits_ret].
    cbv zeta.
    destruct (negb (truthy (optional_prop msgpayload "payload"))
              || negb (String.eqb (typeof (optional_prop msgpayload "payload")) "object"));
      [apply emits_ret|].
    apply emits_try_catch.
    + apply emits_bind; [apply emits_handleApiRequest; apply Hcall|intros _; apply emits_ret].
    + intros err; apply emits_bind; [apply emits_errDelegate|intros _; apply emits_errDelegate].
Qed.

Lemma emits_handleAblyWebhook (request : Request) (env : Env) :
  (forall payload, P (Call_handleApiRequest (VStr "unknow") payload)) ->
  emits P (handleAblyWebhook request env).
Proof.
  intros Hcall; unfold handleAblyWebhook.
  apply emits_try_catch;
    [|intros err; apply emits_bind; [apply emits_errDelegate|intros _; apply emits_ret]].
  cbv zeta.
  destruct (negb (truthy_opt (header_X_Ably_Auth request))
            || negb (opt_string_eqb (header_X_Ably_Auth request) (ABLY_WEBHOOK_SECRET env))).
  - apply emits_bind; [|intros _; apply emits_ret].
    apply emits_log; apply P_other; reflexivity.
  - apply emits_bind.
    + unfold request_text; apply emits_bind; [|intros _; apply emits_ret].
      apply emits_log; apply P_other; reflexivity.
    + intros text; apply emits_bind.
      * apply emits_try_catch.
        -- apply emits_bind; [apply emits_JSON_parse_M|intros v; apply emits_ret].
        -- intros err; apply emits_bind; [apply emits_errDelegate|intros _; apply emits_ret].
      * intros [b|response]; [|apply emits_ret].
        apply emits_bind; [apply emits_get|intros items].
        apply emits_bind.
        -- destruct (truthy items); [apply emits_ret|apply emits_get].
        -- intros messages.
           destruct (negb (truthy messages) || negb (isArray messages)).
           ++ apply emits_bind; [apply emits_errDelegate|intros _; apply emits_ret].
           ++ apply emits_bind; [apply emits_set_G_ENV|intros _].
              apply emits_bind; [apply emits_set_G_DB|intros _].
              apply emits_bind; [|intros _; apply emits_ret].
              apply emits_for_of; intros msg; apply emits_webhook_message; exact Hcall.
Qed.

End Emits.

(** ** Claims about the webhook handler and the router *)

Section WebhookClaims.

Context {R : Runtime}.

Lemma not_pipeline_call_under (rid : value) (e : event) :
  is_pipeline_call e = false -> pipeline_call_under rid e.
Proof. intros H r p ->; discriminate H. Qed.

(** C3, as the code has it.  Invoked with a payload (not [null]) that fails
    the field test, the pipeline does not raise: it returns the
    [MissingField] nack, having made no storage call.  On the webhook path
    that nack is dropped: a message whose [data] [JSON.parse] decodes to a
    value carrying such a payload adds the pipeline call to the trace and
    nothing else (no error report), and the loop goes on with the remaining
    messages. *)
Theorem C3_missing_field_nack_is_dropped_by_webhook
    (requestId payload : value) (st : state) :
  nullish payload = false ->
  missing_fields payload = true ->
  handleApiRequest requestId payload st
  = (Return (nack requestId "MissingField"
               "Missing fields in payload: service, instance, level, message"),
     extend st [Call_handleApiRequest requestId payload])
  /\ (forall (msg v : value) (rest : list value),
        nullish msg = false ->
        truthy (prop msg "data") = true ->
        JSON_parse_value (prop msg "data") = inl v ->
        optional_prop v "payload" = payload ->
        truthy payload = true ->
        typeof payload = "object" ->
        for_of (msg :: rest) webhook_message st
        = for_of rest webhook_message
            (extend st [Call_handleApiRequest (VStr "unknow") payload])).
Proof.
  intros N Mi; split; [apply handleApiRequest_missing; assumption|].
  intros msg v rest Nm T P Hp Tp Ty; simpl.
  assert (E : webhook_message msg st
              = (Return tt, extend st [Call_handleApiRequest (VStr "unknow") payload])).
  { rewrite (webhook_message_data msg st Nm T), P; cbv zeta.
    rewrite Hp, Tp, Ty.
    change (String.eqb "object" "object") with true; cbn [negb orb].
    eapply guarded_pipeline_Return.
    apply handleApiRequest_missing; assumption. }
  rewrite (bind_Return _ _ _ _ _ E); reflexivity.
Qed.

(** C4, as the code has it.  A batch accepted by the secret test, none of
    whose elements is [null], and one of whose messages carries as [data] a
    non-empty string that [JSON.parse] rejects: the handler answers
    plain-text 200 ["OK"], the parse error is reported through [errDelegate],
    and the inserts issued are those of the messages before it followed by
    those of the messages after it, in array order. *)
Theorem C4_unparseable_message_does_not_stop_batch
    (request : Request) (env : Env) (st : state) (b bad : value)
    (pre post : list value) (s err : string) :
  webhook_authorized request env = true ->
  JSON_parse (body_text request) = inl b ->
  messages_of b = VArr (pre ++ bad :: post) ->
  Forall (fun m => nullish m = false) (pre ++ post) ->
  prop bad "data" = VStr s ->
  s <> "" ->
  JSON_parse s = inr err ->
  exists delta,
    result_of (handleAblyWebhook request env) st = Return (text_response "OK" 200)
    /\ trace_of (handleAblyWebhook request env) st = (trace st ++ delta)%list
    /\ In (Call_errDelegate ("❌ Could not parse message.data JSON: " ++ err)) delta
    /\ (forall d, DB env = Some d ->
        filter is_storage_call delta
        = (flat_map message_rows pre ++ flat_map message_rows post)%list).
Proof.
  intros A P Hm Hall Hd Hs Hp; unfold result_of, trace_of.
  rewrite (handleAblyWebhook_batch request env st b _ A P Hm).
  apply Forall_app in Hall; destruct Hall as [Hpre Hpost].
  assert (Nb : nullish bad = false) by (destruct bad; simpl in *; congruence).
  assert (Tb : truthy (prop bad "data") = true).
  { rewrite Hd; simpl; apply negb_true_iff, String.eqb_neq; exact Hs. }
  set (st0 := with_env env (extend st [ReadBody])).
  destruct (for_of_webhook_spec pre st0 Hpre) as (d1 & E1 & S1).
  destruct (errDelegate_spec ("❌ Could not parse message.data JSON: " ++ err)
              (extend st0 d1)) as (tail & E2 & Q2).
  destruct (for_of_webhook_spec post
              (extend (extend st0 d1)
                 (Call_errDelegate ("❌ Could not parse message.data JSON: " ++ err)
                  :: ConsoleError ("❌ Could not parse message.data JSON: " ++ err)
                  :: tail)) Hpost) as (d3 & E3 & S3).
  assert (E : for_of (pre ++ bad :: post) webhook_message st0
              = (Return tt,
                 extend st0
                   (d1 ++ (Call_errDelegate ("❌ Could not parse message.data JSON: " ++ err)
                           :: ConsoleError ("❌ Could not parse message.data JSON: " ++ err)
                           :: tail) ++ d3))).
  { rewrite for_of_app, (bind_Return _ _ _ _ _ E1); simpl.
    erewrite bind_Return; [rewrite E3, !extend_extend; reflexivity|].
    rewrite (webhook_message_data bad _ Nb Tb), Hd.
    change (JSON_parse_value (VStr s)) with (JSON_parse s); rewrite Hp.
    rewrite (bind_Return _ _ _ _ _ E2); reflexivity. }
  unfold try_catch; rewrite (bind_Return _ _ _ _ _ E).
  exists (ReadBody
          :: d1 ++ (Call_errDelegate ("❌ Could not parse message.data JSON: " ++ err)
                    :: ConsoleError ("❌ Could not parse message.data JSON: " ++ err)
                    :: tail) ++ d3)%list.
  split; [reflexivity|]; split; [|split].
  - unfold ret, st0; simpl; rewrite <- app_assoc; reflexivity.
  - right; apply in_or_app; right; left; reflexivity.
  - intros d Hdb.
    assert (G : G_DB st0 = DbHandle d) by (unfold st0, with_env; simpl; now rewrite Hdb).
    simpl; rewrite !filter_app; simpl; rewrite filter_app.
    rewrite (S1 d G), (S3 d G).
    rewrite (quiet_filter _ _ not_storage_of_transport Q2); reflexivity.
Qed.

(** C6.  A webhook request whose [X-Ably-Auth] header is absent, or differs
    from the configured secret, is answered with the plain-text 401 response,
    which is not a nack envelope; the handler only writes to the console: no
    storage call. *)
Theorem C6_webhook_secret_mismatch_401
    (request : Request) (env : Env) (st : state) :
  header_X_Ably_Auth request = None
  \/ header_X_Ably_Auth request <> ABLY_WEBHOOK_SECRET env ->
  handleAblyWebhook request env st
  = (Return (text_response "Unauthorized" 401),
     extend st [ConsoleError "❌ Invalid Ably webhook secret"])
  /\ is_nack (text_response "Unauthorized" 401) = false
  /\ filter is_storage_call [ConsoleError "❌ Invalid Ably webhook secret"] = [].
Proof.
  intros H; split; [|split; reflexivity].
  unfold handleAblyWebhook, try_catch; cbv zeta.
  assert (E : negb (truthy_opt (header_X_Ably_Auth request))
              || negb (opt_string_eqb (header_X_Ably_Auth request)
                         (ABLY_WEBHOOK_SECRET env)) = true).
  { destruct H as [H|H].
    - rewrite H; reflexivity.
    - rewrite (opt_string_eqb_neq _ _ H); apply orb_true_r. }
  rewrite E; reflexivity.
Qed.

(** The loop body on a message for which the pipeline throws. *)
Lemma webhook_message_caught (msg v payload : value) (st st1 : state) (err : string) :
  nullish msg = false ->
  truthy (prop msg "data") = true ->
  JSON_parse_value (prop msg "data") = inl v ->
  optional_prop v "payload" = payload ->
  truthy payload = true ->
  typeof payload = "object" ->
  handleApiRequest (VStr "unknow") payload st = (Throw err, st1) ->
  exists t1 t2,
    quiet t1 /\ quiet t2
    /\ webhook_message msg st
       = (Return tt,
          extend st1
            (Call_errDelegate ("💥 handleApiRequest failed: " ++ err)
             :: ConsoleError ("💥 handleApiRequest failed: " ++ err)
             :: t1
             ++ Call_errDelegate ("Ably webhook failed: " ++ err)
                :: ConsoleError ("Ably webhook failed: " ++ err)
                :: t2)).
Proof.
  intros Nm T P Hp Tp Ty E.
  destruct (guarded_pipeline_Throw payload st st1 err E) as (t1 & t2 & Q1 & Q2 & E').
  exists t1, t2; split; [exact Q1|]; split; [exact Q2|].
  rewrite (webhook_message_data msg st Nm T), P; cbv zeta.
  rewrite Hp, Tp, Ty.
  change (String.eqb "object" "object") with true; cbn [negb orb].
  exact E'.
Qed.

(** C8.  Whatever the request, every pipeline call the webhook handler makes
    is under the request id ["unknow"], which is not ["unknown"]; and when the
    pipeline throws for a message, the loop body catches the error, calls
    [errDelegate] exactly twice (the failure-context report, then the
    webhook-failure report) and the loop goes on with the remaining messages:
    the handler processes the messages after it and answers 200 ["OK"]. *)
Theorem C8_webhook_request_id_and_caught_errors :
  (forall (request : Request) (env : Env) (st : state),
     exists delta,
       trace_of (handleAblyWebhook request env) st = (trace st ++ delta)%list
       /\ Forall (pipeline_call_under (VStr "unknow")) delta)
  /\ VStr "unknow" <> VStr "unknown"
  /\ (forall (msg v payload : value) (rest : list value) (st st1 : state) (err : string),
        nullish msg = false ->
        truthy (prop msg "data") = true ->
        JSON_parse_value (prop msg "data") = inl v ->
        optional_prop v "payload" = payload ->
        truthy payload = true ->
        typeof payload = "object" ->
        handleApiRequest (VStr "unknow") payload st = (Throw err, st1) ->
        exists t1 t2,
          quiet t1 /\ quiet t2
          /\ for_of (msg :: rest) webhook_message st
             = for_of rest webhook_message
                 (extend st1
                    (Call_errDelegate ("💥 handleApiRequest failed: " ++ err)
                     :: ConsoleError ("💥 handleApiRequest failed: " ++ err)
                     :: t1
                     ++ Call_errDelegate ("Ably webhook failed: " ++ err)
                        :: ConsoleError ("Ably webhook failed: " ++ err)
                        :: t2)))
  /\ (forall (request : Request) (env : Env) (st before st1 : state) (b msg v payload : value)
             (pre post : list value) (err : string),
        webhook_authorized request env = true ->
        JSON_parse (body_text request) = inl b ->
        messages_of b = VArr (pre ++ msg :: post) ->
        for_of pre webhook_message (with_env env (extend st [ReadBody]))
        = (Return tt, before) ->
        Forall (fun m => nullish m = false) post ->
        nullish msg = false ->
        truthy (prop msg "data") = true ->
        JSON_parse_value (prop msg "data") = inl v ->
        optional_prop v "payload" = payload ->
        truthy payload = true ->
        typeof payload = "object" ->
        handleApiRequest (VStr "unknow") payload before = (Throw err, st1) ->
        exists t1 t2 later,
          quiet t1 /\ quiet t2
          /\ for_of post webhook_message
               (extend st1
                  (Call_errDelegate ("💥 handleApiRequest failed: " ++ err)
                   :: ConsoleError ("💥 handleApiRequest failed: " ++ err)
                   :: t1
                   ++ Call_errDelegate ("Ably webhook failed: " ++ err)
                      :: ConsoleError ("Ably webhook failed: " ++ err)
                      :: t2))
             = (Return tt,
                extend st1
                  ((Call_errDelegate ("💥 handleApiRequest failed: " ++ err)
                    :: ConsoleError ("💥 handleApiRequest failed: " ++ err)
                    :: t1
                    ++ Call_errDelegate ("Ably webhook failed: " ++ err)
                       :: ConsoleError ("Ably webhook failed: " ++ err)
                       :: t2)
                   ++ later))
          /\ handleAblyWebhook request env st
             = (Return (text_response "OK" 200),
                extend st1
                  ((Call_errDelegate ("💥 handleApiRequest failed: " ++ err)
                    :: ConsoleError ("💥 handleApiRequest failed: " ++ err)
                    :: t1
                    ++ Call_errDelegate ("Ably webhook failed: " ++ err)
                       :: ConsoleError ("Ably webhook failed: " ++ err)
                       :: t2)
                   ++ later))).
Proof.
  split; [|split; [|split]].
  - intros request env st.
    apply (emits_handleAblyWebhook (pipeline_call_under (VStr "unknow"))).
    + intros e; apply not_pipeline_call_under.
    + intros payload r p E; inversion E; reflexivity.
  - discriminate.
  - intros msg v payload rest st st1 err Nm T P Hp Tp Ty E.
    destruct (webhook_message_caught msg v payload st st1 err Nm T P Hp Tp Ty E)
      as (t1 & t2 & Q1 & Q2 & E0).
    exists t1, t2; split; [exact Q1|]; split; [exact Q2|].
    simpl; rewrite (bind_Return _ _ _ _ _ E0); reflexivity.
  - intros request env st before st1 b msg v payload pre post err
           A Pb Hm Hpre Hpost Nm T P Hp Tp Ty E.
    destruct (webhook_message_caught msg v payload before st1 err Nm T P Hp Tp Ty E)
      as (t1 & t2 & Q1 & Q2 & E0).
    match type of E0 with _ = (_, ?s) =>
      destruct (for_of_webhook_spec post s Hpost) as (later & E3 & _) end.
    exists t1, t2, later; split; [exact Q1|]; split; [exact Q2|].
    rewrite extend_extend in E3; split; [exact E3|].
    rewrite (handleAblyWebhook_batch request env st b _ A Pb Hm).
    assert (El : for_of (pre ++ msg :: post) webhook_message
                   (with_env env (extend st [ReadBody]))
                 = for_of post webhook_message
                     (extend st1
                        (Call_errDelegate ("💥 handleApiRequest failed: " ++ err)
                         :: ConsoleError ("💥 handleApiRequest failed: " ++ err)
                         :: t1
                         ++ Call_errDelegate ("Ably webhook failed: " ++ err)
                            :: ConsoleError ("Ably webhook failed: " ++ err)
                            :: t2))).
    { rewrite for_of_app, (bind_Return _ _ _ _ _ Hpre); simpl.
      rewrite (bind_Return _ _ _ _ _ E0); reflexivity. }
    unfold try_catch, bind at 1; rewrite El, E3; reflexivity.
Qed.

(** C9.  A request whose method is not POST is answered with 405 whatever its
    path, headers and body, the state untouched; a POST goes to [handleApi]
    on [/api], to [handleAblyWebhook] on [/ably], and is answered with 404 on
    every other path. *)
Theorem C9_router_dispatch (request : Request) (env : Env) (st : state) :
  (method request <> "POST" ->
   fetch request env st = (Return (text_response "Method Not Allowed" 405), st))
  /\ (method request = "POST" ->
      (pathname request = "/api" -> fetch request env st = handleApi request env st)
      /\ (pathname request = "/ably" ->
          fetch request env st = handleAblyWebhook request env st)
      /\ (pathname request <> "/api" -> pathname request <> "/ably" ->
          fetch request env st = (Return (text_response "Not Found" 404), st))).
Proof.
  unfold fetch; split.
  - intros H; apply String.eqb_neq in H; rewrite H; reflexivity.
  - intros H; apply String.eqb_eq in H; rewrite H; cbn [negb].
    split; [|split].
    + intros Hp; apply String.eqb_eq in Hp; rewrite Hp; reflexivity.
    + intros Hp; rewrite Hp; reflexivity.
    + intros H1 H2; apply String.eqb_neq in H1, H2; rewrite H1, H2; reflexivity.
Qed.

End WebhookClaims.

(** On a payload without level the pipeline returns, it does not raise; and
    the webhook handler, given a batch whose only message carries that
    payload, reports nothing to the error-notification path. *)
Lemma C3_counterexample :
  (forall m,
     result_of (@handleApiRequest ex_runtime (VStr "unknow") ex_payload_no_level)
       (ex_state ex_db) <> Throw m)
  /\ filter is_error_report
       (trace_of (@handleAblyWebhook ex_runtime
                    (ex_webhook_request (Some "hook-secret") ex_batch_no_level_text)
                    (ex_env (Some ex_db))) initial_state)
     = [].
Proof.
  split.
  - intros m; vm_compute; discriminate.
  - vm_compute; reflexivity.
Qed.

(** Two accepted batches on which the handler does otherwise.  The empty
    string is a string that [JSON.parse] rejects, yet a message carrying it as
    [data] is skipped by the [!msg.data] test before any parse: nothing is
    reported.  And after a message with undecodable data, a [null] element
    makes [msg.data] throw outside the per-message guards: the outer guard
    answers 500, not 200. *)
Lemma C4_counterexample :
  (@JSON_parse ex_runtime "" = inr "Unexpected end of JSON input"
   /\ filter is_error_report
        (trace_of (@handleAblyWebhook ex_runtime
                     (ex_webhook_request (Some "hook-secret") ex_batch_empty_data_text)
                     (ex_env (Some ex_db))) initial_state)
      = [])
  /\ (@JSON_parse ex_runtime ex_bad_data = inr "Unexpected token"
      /\ result_of (@handleAblyWebhook ex_runtime
                      (ex_webhook_request (Some "hook-secret") ex_batch_null_text)
                      (ex_env (Some ex_db))) initial_state
         = Return (text_response "Internal Server Error" 500)).
Proof. repeat split; vm_compute; reflexivity. Qed.

Lemma C3_witness :
  @handleApiRequest ex_runtime (VStr "unknow") ex_payload_no_level (ex_state ex_db)
  = (Return (nack (VStr "unknow") "MissingField"
               "Missing fields in payload: service, instance, level, message"),
     extend (ex_state ex_db) [Call_handleApiRequest (VStr "unknow") ex_payload_no_level])
  /\ for_of [ex_message (ex_data_text ex_payload_no_level_text)]
       (@webhook_message ex_runtime) (ex_state ex_db)
     = for_of [] (@webhook_message ex_runtime)
         (extend (ex_state ex_db)
            [Call_handleApiRequest (VStr "unknow") ex_payload_no_level]).
Proof.
  destruct (@C3_missing_field_nack_is_dropped_by_webhook ex_runtime (VStr "unknow")
              ex_payload_no_level (ex_state ex_db) eq_refl eq_refl) as [H1 H2].
  split; [exact H1|].
  apply (H2 (ex_message (ex_data_text ex_payload_no_level_text))
            (VObj [("payload", ex_payload_no_level)]) []); reflexivity.
Defined.

Lemma C4_witness :
  exists delta,
    result_of (@handleAblyWebhook ex_runtime
                 (ex_webhook_request (Some "hook-secret") ex_batch_text)
                 (ex_env (Some ex_db))) initial_state
    = Return (text_response "OK" 200)
    /\ trace_of (@handleAblyWebhook ex_runtime
                   (ex_webhook_request (Some "hook-secret") ex_batch_text)
                   (ex_env (Some ex_db))) initial_state
       = ([] ++ delta)%list
    /\ In (Call_errDelegate ("❌ Could not parse message.data JSON: " ++ "Unexpected token"))
         delta
    /\ (forall d, Some ex_db = Some d ->
        filter is_storage_call delta
        = [D1Run insert_sql [VStr "billing"; VStr "eu-1"; VNum pos_zero; VStr "disk full"];
           D1Run insert_sql [VStr "billing"; VStr "eu-1"; VNum num_five; VStr "disk full"]]).
Proof.
  apply (@C4_unparseable_message_does_not_stop_batch ex_runtime
           (ex_webhook_request (Some "hook-secret") ex_batch_text)
           (ex_env (Some ex_db)) initial_state
           (VObj [("items", VArr ex_batch)])
           (ex_message ex_bad_data)
           [ex_message (ex_data_text (ex_payload_text "0"))]
           [ex_message (ex_data_text (ex_payload_text "5"))]
           ex_bad_data "Unexpected token").
  - reflexivity.
  - reflexivity.
  - reflexivity.
  - repeat constructor.
  - reflexivity.
  - discriminate.
  - reflexivity.
Defined.

Lemma C6_witness :
  @handleAblyWebhook ex_runtime (ex_webhook_request (Some "guess") ex_batch_text)
    (ex_env (Some ex_db)) initial_state
  = (Return (text_response "Unauthorized" 401),
     extend initial_state [ConsoleError "❌ Invalid Ably webhook secret"])
  /\ is_nack (text_response "Unauthorized" 401) = false
  /\ filter is_storage_call [ConsoleError "❌ Invalid Ably webhook secret"] = [].
Proof.
  apply (@C6_webhook_secret_mismatch_401 ex_runtime
           (ex_webhook_request (Some "guess") ex_batch_text)
           (ex_env (Some ex_db)) initial_state).
  right; discriminate.
Defined.

Lemma C8_witness :
  exists t1 t2,
    quiet t1 /\ quiet t2
    /\ for_of [ex_message (ex_data_text (ex_payload_text "5"));
               ex_message (ex_data_text (ex_payload_text "0"))]
         (@webhook_message ex_runtime) (ex_state ex_db_down)
       = for_of [ex_message (ex_data_text (ex_payload_text "0"))]
           (@webhook_message ex_runtime)
           (extend
              (extend (ex_state ex_db_down)
                 [Call_handleApiRequest (VStr "unknow") (ex_payload (VNum num_five));
                  D1Run insert_sql (row_of (ex_payload (VNum num_five)))])
              (Call_errDelegate ("💥 handleApiRequest failed: " ++ "D1_ERROR: no such table")
               :: ConsoleError ("💥 handleApiRequest failed: " ++ "D1_ERROR: no such table")
               :: t1
               ++ Call_errDelegate ("Ably webhook failed: " ++ "D1_ERROR: no such table")
                  :: ConsoleError ("Ably webhook failed: " ++ "D1_ERROR: no such table")
                  :: t2)).
Proof.
  apply (proj1 (proj2 (proj2 (@C8_webhook_request_id_and_caught_errors ex_runtime)))
           (ex_message (ex_data_text (ex_payload_text "5")))
           (VObj [("payload", ex_payload (VNum num_five))])
           (ex_payload (VNum num_five))
           [ex_message (ex_data_text (ex_payload_text "0"))]
           (ex_state ex_db_down)); reflexivity.
Defined.

Lemma C9_witness :
  @fetch ex_runtime
    {| method := "GET"; pathname := "/api";
       header_Authorization := Some "Bearer write-token"; header_X_Ably_Auth := None;
       body_text := ex_api_text (ex_payload_text "0") |}
    (ex_env (Some ex_db)) initial_state
  = (Return (text_response "Method Not Allowed" 405), initial_state)
  /\ @fetch ex_runtime (ex_api_request None "") (ex_env (Some ex_db)) initial_state
     = @handleApi ex_runtime (ex_api_request None "") (ex_env (Some ex_db)) initial_state.
Proof.
  split.
  - apply (proj1 (@C9_router_dispatch ex_runtime
                    {| method := "GET"; pathname := "/api";
                       header_Authorization := Some "Bearer write-token";
                       header_X_Ably_Auth := None;
                       body_text := ex_api_text (ex_payload_text "0") |}
                    (ex_env (Some ex_db)) initial_state)).
    discriminate.
  - apply (proj1 (proj2 (@C9_router_dispatch ex_runtime (ex_api_request None "")
                           (ex_env (Some ex_db)) initial_state) eq_refl)).
    reflexivity.
Defined.

(** ** Further properties of the pipeline and the Direct API handler *)

Section PipelineRuns.

Context {R : Runtime}.

Lemma missing_fields_inv (payload : value) :
  missing_fields payload = false ->
  truthy (prop payload "service") = true
  /\ truthy (prop payload "instance") = true
  /\ is_undefined (prop payload "level") = false
  /\ truthy (prop payload "message") = true.
Proof.
  unfold missing_fields; intros H.
  apply orb_false_elim in H; destruct H as [H Hm].
  apply orb_false_elim in H; destruct H as [H Hl].
  apply orb_false_elim in H; destruct H as [Hs Hi].
  apply negb_false_iff in Hs, Hi, Hm; auto.
Qed.

(** Every run of the pipeline has one of three shapes: nothing but the call
    itself, the call and the insert, or the call, the insert and the
    notification (then it returns the ack). *)
Lemma handleApiRequest_runs (requestId payload : value) (st : state) :
  exists o delta,
    handleApiRequest requestId payload st
    = (o, extend st (Call_handleApiRequest requestId payload :: delta))
    /\ ((delta = []
         /\ (o = Return (nack requestId "MissingField"
                           "Missing fields in payload: service, instance, level, message")
             \/ exists m, o = Throw m))
        \/ (delta = [D1Run insert_sql (row_of payload)]
            /\ (o = Return (ack requestId) \/ exists m, o = Throw m))
        \/ (exists tail,
              delta = D1Run insert_sql (row_of payload)
                      :: Call_messageTelegram payload :: tail
              /\ quiet tail /\ o = Return (ack requestId))).
Proof.
  destruct (nullish payload) eqn:N.
  - unfold handleApiRequest, bind, log, destructure4; rewrite N; unfold throw.
    eexists; exists []; split; [reflexivity|].
    left; split; [reflexivity|]; right; eexists; reflexivity.
  - rewrite handleApiRequest_unfold by exact N.
    destruct (missing_fields payload).
    + eexists; exists []; split; [reflexivity|].
      left; split; [reflexivity|]; left; reflexivity.
    + unfold bind at 1, G_DB_run; simpl G_DB; simpl trace.
      destruct (G_DB st) as [| |d].
      * eexists; exists []; split; [reflexivity|].
        left; split; [reflexivity|]; right; eexists; reflexivity.
      * eexists; exists []; split; [reflexivity|].
        left; split; [reflexivity|]; right; eexists; reflexivity.
      * destruct (d1_run d _ _ _) as [m|]; rewrite extend_extend.
        -- eexists; eexists; split; [reflexivity|].
           right; left; split; [reflexivity|]; right; eexists; reflexivity.
        -- rewrite bind_lift.
           destruct (js_ge (prop payload "level") num_three) as [[|]|m'].
           ++ match goal with |- context [bind _ _ ?s] =>
                destruct (messageTelegram_spec payload s) as (tail & E & Q) end.
              erewrite bind_Return by exact E.
              unfold bind, ret; rewrite extend_extend.
              eexists; eexists; split; [reflexivity|].
              right; right; exists tail; auto.
           ++ unfold bind, ret.
              eexists; eexists; split; [reflexivity|].
              right; left; split; [reflexivity|]; left; reflexivity.
           ++ eexists; eexists; split; [reflexivity|].
              right; left; split; [reflexivity|]; right; eexists; reflexivity.
Qed.

Lemma store_and_notify_quiet (tail : list event) : quiet tail -> store_and_notify tail = [].
Proof.
  intros Q; apply quiet_filter; [|exact Q].
  intros e; destruct e; simpl; congruence.
Qed.

(** X1.  Whatever the payload, the request id and the state, the pipeline
    makes at most one insert and at most one notification, never a
    notification without the insert before it, and a run that notifies
    returns the ack. *)
Theorem pipeline_stores_before_it_notifies (requestId payload : value) (st : state) :
  exists o delta,
    handleApiRequest requestId payload st = (o, extend st delta)
    /\ (store_and_notify delta = []
        \/ store_and_notify delta = [D1Run insert_sql (row_of payload)]
        \/ (store_and_notify delta
            = [D1Run insert_sql (row_of payload); Call_messageTelegram payload]
            /\ o = Return (ack requestId))).
Proof.
  destruct (handleApiRequest_runs requestId payload st) as (o & delta & E & H).
  exists o; eexists; split; [exact E|].
  destruct H as [[-> _]|[[-> _]|(tail & -> & Q & ->)]].
  - left; reflexivity.
  - right; left; reflexivity.
  - right; right; split; [|reflexivity].
    unfold store_and_notify; simpl.
    fold (store_and_notify tail); rewrite (store_and_notify_quiet tail Q); reflexivity.
Qed.

Lemma handleApiRequest_unbound (requestId payload : value) (st : state) :
  missing_fields payload = false ->
  G_DB st = DbUndefined ->
  handleApiRequest requestId payload st
  = (Throw (type_error_read VUndefined "prepare"),
     extend st [Call_handleApiRequest requestId payload]).
Proof.
  intros V HDB.
  rewrite handleApiRequest_unfold by now apply missing_fields_not_nullish.
  rewrite V; unfold bind, G_DB_run; simpl G_DB; rewrite HDB; reflexivity.
Qed.

(** X2.  A request that passed the credential test, with a payload passing
    the field test and a level for which [level >= 3] evaluates to false,
    and the insert resolving: the handler returns the ack after exactly the
    body read, the pipeline call and the insert; no notification. *)
Theorem api_low_level_ack_without_notification
    (request : Request) (env : Env) (st : state) (b : value) (d : D1Database) :
  api_authorized request env = true ->
  JSON_parse (body_text request) = inl b ->
  missing_fields (prop b "payload") = false ->
  js_ge (prop (prop b "payload") "level") num_three = Return false ->
  DB env = Some d ->
  d1_run d (trace st ++ [ReadBody;
                         Call_handleApiRequest (request_id_of b) (prop b "payload")])
    insert_sql (row_of (prop b "payload")) = None ->
  result_of (handleApi request env) st = Return (ack (request_id_of b))
  /\ trace_of (handleApi request env) st
     = (trace st ++ [ReadBody;
                     Call_handleApiRequest (request_id_of b) (prop b "payload");
                     D1Run insert_sql (row_of (prop b "payload"))])%list.
Proof.
  intros A P V L HDB Hrun; unfold result_of, trace_of.
  destruct (missing_fields_inv _ V) as (_ & _ & _ & Hm).
  assert (N : nullish b = false)
    by (eapply prop_not_nullish, missing_fields_not_nullish; exact V).
  rewrite (handleApi_parsed request env st b A P N), Hm.
  unfold try_catch.
  destruct (handleApiRequest_stored (request_id_of b) (prop b "payload")
              (with_env env (extend st [ReadBody])) d false V) as (tail & E & Q).
  - unfold with_env; simpl; rewrite HDB; reflexivity.
  - simpl; rewrite <- app_assoc; exact Hrun.
  - exact L.
  - rewrite E; simpl; split; [reflexivity|].
    rewrite <- app_assoc; reflexivity.
Qed.

(** X3.  When the insert rejects with message [m], the Direct API handler
    answers the [DB_ERROR] nack carrying [m] under the request's id, after
    one error report; the notification sender is not invoked, whatever the
    level. *)
Theorem api_insert_rejected_DB_ERROR
    (request : Request) (env : Env) (st : state) (b : value) (d : D1Database)
    (m : string) :
  api_authorized request env = true ->
  JSON_parse (body_text request) = inl b ->
  missing_fields (prop b "payload") = false ->
  DB env = Some d ->
  d1_run d (trace st ++ [ReadBody;
                         Call_handleApiRequest (request_id_of b) (prop b "payload")])
    insert_sql (row_of (prop b "payload")) = Some m ->
  exists tail,
    quiet tail
    /\ result_of (handleApi request env) st
       = Return (nack (request_id_of b) "DB_ERROR" m)
    /\ trace_of (handleApi request env) st
       = (trace st
          ++ [ReadBody;
              Call_handleApiRequest (request_id_of b) (prop b "payload");
              D1Run insert_sql (row_of (prop b "payload"));
              Call_errDelegate ("handleApiRequest failed: " ++ m);
              ConsoleError ("handleApiRequest failed: " ++ m)]
          ++ tail)%list.
Proof.
  intros A P V HDB Hrun; unfold result_of, trace_of.
  destruct (missing_fields_inv _ V) as (_ & _ & _ & Hm).
  assert (N : nullish b = false)
    by (eapply prop_not_nullish, missing_fields_not_nullish; exact V).
  rewrite (handleApi_parsed request env st b A P N), Hm.
  unfold try_catch.
  rewrite (handleApiRequest_rejected (request_id_of b) (prop b "payload")
             (with_env env (extend st [ReadBody])) d m V).
  - match goal with |- context [bind (errDelegate ?t) _ ?s] =>
      destruct (errDelegate_spec t s) as (tail & E & Q) end.
    rewrite (bind_Return _ _ _ _ _ E).
    exists tail; split; [exact Q|]; split; [reflexivity|].
    simpl; rewrite <- !app_assoc; reflexivity.
  - unfold with_env; simpl; rewrite HDB; reflexivity.
  - simpl; rewrite <- app_assoc; exact Hrun.
Qed.

(** X4.  When the environment has no [DB] binding, a request that passed the
    credential and field tests is answered with the [DB_ERROR] nack carrying
    the TypeError of [G_DB.prepare]; no storage call is made. *)
Theorem api_missing_binding_DB_ERROR
    (request : Request) (env : Env) (st : state) (b : value) :
  api_authorized request env = true ->
  JSON_parse (body_text request) = inl b ->
  missing_fields (prop b "payload") = false ->
  DB env = None ->
  exists tail,
    quiet tail
    /\ result_of (handleApi request env) st
       = Return (nack (request_id_of b) "DB_ERROR"
                   "Cannot read properties of undefined (reading 'prepare')")
    /\ trace_of (handleApi request env) st
       = (trace st
          ++ [ReadBody;
              Call_handleApiRequest (request_id_of b) (prop b "payload");
              Call_errDelegate
                ("handleApiRequest failed: "
                   ++ "Cannot read properties of undefined (reading 'prepare')");
              ConsoleError
                ("handleApiRequest failed: "
                   ++ "Cannot read properties of undefined (reading 'prepare')")]
          ++ tail)%list.
Proof.
  intros A P V HDB; unfold result_of, trace_of.
  destruct (missing_fields_inv _ V) as (_ & _ & _ & Hm).
  assert (N : nullish b = false)
    by (eapply prop_not_nullish, missing_fields_not_nullish; exact V).
  rewrite (handleApi_parsed request env st b A P N), Hm.
  unfold try_catch.
  rewrite (handleApiRequest_unbound (request_id_of b) (prop b "payload")
             (with_env env (extend st [ReadBody])) V)
    by (unfold with_env; simpl; rewrite HDB; reflexivity).
  match goal with |- context [bind (errDelegate ?t) _ ?s] =>
    destruct (errDelegate_spec t s) as (tail & E & Q) end.
  rewrite (bind_Return _ _ _ _ _ E).
  exists tail; split; [exact Q|]; split; [reflexivity|].
  simpl; rewrite <- !app_assoc; reflexivity.
Qed.

(** X25.  When the level does not convert to a number (an object with an own
    [toString] property, or an array holding one), the comparison
    [level >= 3] throws after the insert has resolved: the row is stored, and
    the Direct API handler still answers the [DB_ERROR] nack, carrying the
    TypeError, after one error report; no notification. *)
Theorem api_unconvertible_level_DB_ERROR_after_insert
    (request : Request) (env : Env) (st : state) (b : value) (d : D1Database)
    (m : string) :
  api_authorized request env = true ->
  JSON_parse (body_text request) = inl b ->
  missing_fields (prop b "payload") = false ->
  DB env = Some d ->
  d1_run d (trace st ++ [ReadBody;
                         Call_handleApiRequest (request_id_of b) (prop b "payload")])
    insert_sql (row_of (prop b "payload")) = None ->
  js_ge (prop (prop b "payload") "level") num_three = Throw m ->
  exists tail,
    quiet tail
    /\ result_of (handleApi request env) st
       = Return (nack (request_id_of b) "DB_ERROR" m)
    /\ trace_of (handleApi request env) st
       = (trace st
          ++ [ReadBody;
              Call_handleApiRequest (request_id_of b) (prop b "payload");
              D1Run insert_sql (row_of (prop b "payload"));
              Call_errDelegate ("handleApiRequest failed: " ++ m);
              ConsoleError ("handleApiRequest failed: " ++ m)]
          ++ tail)%list.
Proof.
  intros A P V HDB Hrun Hge; unfold result_of, trace_of.
  destruct (missing_fields_inv _ V) as (_ & _ & _ & Hm).
  assert (N : nullish b = false)
    by (eapply prop_not_nullish, missing_fields_not_nullish; exact V).
  rewrite (handleApi_parsed request env st b A P N), Hm.
  unfold try_catch.
  rewrite (handleApiRequest_uncoercible (request_id_of b) (prop b "payload")
             (with_env env (extend st [ReadBody])) d m V).
  - match goal with |- context [bind (errDelegate ?t) _ ?s] =>
      destruct (errDelegate_spec t s) as (tail & E & Q) end.
    rewrite (bind_Return _ _ _ _ _ E).
    exists tail; split; [exact Q|]; split; [reflexivity|].
    simpl; rewrite <- !app_assoc; reflexivity.
  - unfold with_env; simpl; rewrite HDB; reflexivity.
  - simpl; rewrite <- app_assoc; exact Hrun.
  - exact Hge.
Qed.

End PipelineRuns.

Section DirectApiRuns.

Context {R : Runtime}.

Lemma not_pipeline_of_transport (e : event) :
  is_transport e = true -> is_pipeline_call e = false.
Proof. destruct e; simpl; congruence. Qed.

(** Past the credential test, with a parsed body other than [null], the
    handler always returns: the ack or a nack. *)
Lemma handleApi_parsed_runs (request : Request) (env : Env) (st : state) (b : value) :
  api_authorized request env = true ->
  JSON_parse (body_text request) = inl b ->
  nullish b = false ->
  exists response delta,
    result_of (handleApi request env) st = Return response
    /\ trace_of (handleApi request env) st = (trace st ++ ReadBody :: delta)%list
    /\ (length (filter is_storage_call delta) <= 1)%nat
    /\ (length (filter is_pipeline_call delta) <= 1)%nat
    /\ (response = ack (request_id_of b)
        \/ exists code message,
             response = nack (request_id_of b) code message
             /\ (code = "INVALID_FIELD" \/ code = "MissingField" \/ code = "DB_ERROR")).
Proof.
  intros A P N; unfold result_of, trace_of.
  rewrite (handleApi_parsed request env st b A P N).
  destruct (truthy (prop (prop b "payload") "message")).
  - unfold try_catch.
    destruct (handleApiRequest_runs (request_id_of b) (prop b "payload")
                (with_env env (extend st [ReadBody]))) as (o & pd & E & H).
    rewrite E.
    assert (Hs : (length (filter is_storage_call pd) <= 1)%nat
                 /\ filter is_pipeline_call pd = []).
    { destruct H as [[-> _]|[[-> _]|(tail & -> & Q & _)]]; simpl; auto.
      rewrite (quiet_filter _ _ not_storage_of_transport Q).
      rewrite (quiet_filter _ _ not_pipeline_of_transport Q); simpl; auto. }
    destruct Hs as [Hs Hp].
    destruct o as [r|m].
    + exists r, (Call_handleApiRequest (request_id_of b) (prop b "payload") :: pd).
      split; [reflexivity|]; split; [simpl; rewrite <- app_assoc; reflexivity|].
      split; [exact Hs|]; split; [simpl; rewrite Hp; simpl; lia|].
      destruct H as [[_ [H|(m & H)]]|[[_ [H|(m & H)]]|(tail & _ & _ & H)]];
        inversion H; subst; auto.
      right; eexists; eexists; split; [reflexivity|]; auto.
    + match goal with |- context [bind (errDelegate ?t) _ ?s] =>
        destruct (errDelegate_spec t s) as (tail & Ed & Q) end.
      rewrite (bind_Return _ _ _ _ _ Ed).
      eexists; eexists; split; [reflexivity|]; split;
        [simpl; rewrite <- !app_assoc; reflexivity|].
      split; [|split].
      * simpl; rewrite filter_app; simpl.
        rewrite (quiet_filter _ _ not_storage_of_transport Q), app_nil_r; exact Hs.
      * simpl; rewrite filter_app, Hp; simpl.
        rewrite (quiet_filter _ _ not_pipeline_of_transport Q); simpl; lia.
      * right; eexists; eexists; split; [reflexivity|]; auto.
  - exists (nack (request_id_of b) "INVALID_FIELD" "Missing required field: payload.message"), [].
    split; [reflexivity|]; split; [reflexivity|]; simpl.
    split; [lia|]; split; [lia|].
    right; eexists; eexists; split; [reflexivity|]; auto.
Qed.

(** The handler by cases on the credential test, the parse and the body. *)
Lemma handleApi_cases (request : Request) (env : Env) (st : state) :
  (api_authorized request env = false
   /\ exists code message,
        handleApi request env st = (Return (nack (VStr "unknown") code message), st)
        /\ (code = "UNAUTHORIZED" \/ code = "INVALID_TOKEN"))
  \/ (api_authorized request env = true
      /\ exists m, JSON_parse (body_text request) = inr m)
  \/ (api_authorized request env = true
      /\ exists b, JSON_parse (body_text request) = inl b /\ nullish b = true)
  \/ (api_authorized request env = true
      /\ exists b, JSON_parse (body_text request) = inl b /\ nullish b = false).
Proof.
  destruct (well_formed_authorization (header_Authorization request)) eqn:W.
  - destruct (opt_string_eqb (bearer_token (header_Authorization request))
                (DA_WRITETOKEN env)) eqn:T.
    + assert (A : api_authorized request env = true)
        by (unfold api_authorized; rewrite W, T; reflexivity).
      right.
      destruct (JSON_parse (body_text request)) as [b|m]; [|left; eauto].
      right; destruct (nullish b) eqn:N; [left|right]; eauto.
    + left; split; [unfold api_authorized; rewrite W, T; reflexivity|].
      eexists; eexists; split; [apply handleApi_wrong_token; assumption|auto].
  - left; split; [unfold api_authorized; rewrite W; reflexivity|].
    eexists; eexists; split; [apply handleApi_malformed_authorization; assumption|auto].
Qed.

(** X5.  With the credential test passed and a body that [JSON.parse]
    rejects, the handler answers the [INVALID_JSON] nack under the request id
    ["unknown"]; it has read the body and done nothing else (the globals keep
    their values, the parser's message is dropped). *)
Theorem api_malformed_body_INVALID_JSON
    (request : Request) (env : Env) (st : state) (m : string) :
  api_authorized request env = true ->
  JSON_parse (body_text request) = inr m ->
  handleApi request env st
  = (Return (nack (VStr "unknown") "INVALID_JSON" "Malformed JSON body"),
     extend st [ReadBody]).
Proof.
  intros A P; destruct (api_authorized_inv _ _ A) as (A1 & A2 & A3).
  unfold handleApi; rewrite A1, A2, A3; cbn [negb orb].
  unfold bind, try_catch, request_json, JSON_parse_M, log.
  rewrite P; reflexivity.
Qed.

(** X6.  The Direct API handler lets an exception escape in exactly one
    situation: the credential test passed and the body is the JSON [null]
    (reading [body.request_id] throws outside every guard). *)
Theorem api_throws_exactly_on_null_body (request : Request) (env : Env) (st : state) :
  (exists m, result_of (handleApi request env) st = Throw m)
  <-> (api_authorized request env = true
       /\ exists b, JSON_parse (body_text request) = inl b /\ nullish b = true).
Proof.
  unfold result_of; split.
  - intros (m & H).
    destruct (handleApi_cases request env st)
      as [(_ & c & msg & E & _)|[(A & m' & P)|[(A & b & P & N)|(A & b & P & N)]]].
    + rewrite E in H; discriminate H.
    + rewrite (handleApi_invalid_json request env st m' A P) in H; discriminate H.
    + eauto.
    + destruct (handleApi_parsed_runs request env st b A P N) as (r & d & E & _).
      unfold result_of in E; rewrite E in H; discriminate H.
  - intros (A & b & P & N).
    rewrite (handleApi_null_body request env st b A P N); eexists; reflexivity.
Qed.

(** X7.  With the credential test passed and a parsed body other than [null],
    the handler always answers, and its answer carries [body.request_id] when
    that is truthy and ["unknown"] otherwise: it is the ack, or a nack whose
    code is [INVALID_FIELD], [MissingField] or [DB_ERROR]. *)
Theorem api_answer_carries_request_id
    (request : Request) (env : Env) (st : state) (b : value) :
  api_authorized request env = true ->
  JSON_parse (body_text request) = inl b ->
  nullish b = false ->
  exists response,
    result_of (handleApi request env) st = Return response
    /\ (response = ack (request_id_of b)
        \/ exists code message,
             response = nack (request_id_of b) code message
             /\ (code = "INVALID_FIELD" \/ code = "MissingField" \/ code = "DB_ERROR")).
Proof.
  intros A P N.
  destruct (handleApi_parsed_runs request env st b A P N) as (r & d & E & _ & _ & _ & H).
  exists r; auto.
Qed.

(** X8.  Whatever the request, the environment and the state, one run of the
    Direct API handler calls the pipeline at most once and makes at most one
    storage call. *)
Theorem api_at_most_one_insert (request : Request) (env : Env) (st : state) :
  exists delta,
    trace_of (handleApi request env) st = (trace st ++ delta)%list
    /\ (length (filter is_pipeline_call delta) <= 1)%nat
    /\ (length (filter is_storage_call delta) <= 1)%nat.
Proof.
  unfold trace_of.
  destruct (handleApi_cases request env st)
    as [(_ & c & msg & E & _)|[(A & m' & P)|[(A & b & P & N)|(A & b & P & N)]]].
  - rewrite E; exists []; simpl; rewrite app_nil_r; auto.
  - rewrite (handleApi_invalid_json request env st m' A P); exists [ReadBody]; simpl; auto.
  - rewrite (handleApi_null_body request env st b A P N); exists [ReadBody]; simpl; auto.
  - destruct (handleApi_parsed_runs request env st b A P N)
      as (r & d & _ & E & Hs & Hp & _).
    exists (ReadBody :: d); split; [exact E|]; simpl; auto.
Qed.

(** X9.  The handler reads the request body exactly when the credential test
    passes: an accepted request extends the trace starting with the body
    read, and a rejected one adds nothing, the whole state (trace and
    globals) being left as it was. *)
Theorem api_reads_body_iff_authorized (request : Request) (env : Env) (st : state) :
  ((exists delta,
      trace_of (handleApi request env) st = (trace st ++ ReadBody :: delta)%list)
   <-> api_authorized request env = true)
  /\ (api_authorized request env = false -> snd (handleApi request env st) = st).
Proof.
  split;
    [|intros A;
      destruct (handleApi_cases request env st)
        as [(_ & c & msg & E & _)|[(A' & _)|[(A' & _)|(A' & _)]]]; try congruence;
      rewrite E; reflexivity].
  unfold trace_of; split.
  - intros (delta & H).
    destruct (api_authorized request env) eqn:A; [reflexivity|exfalso].
    destruct (handleApi_cases request env st)
      as [(_ & c & msg & E & _)|[(A' & _)|[(A' & _)|(A' & _)]]]; try congruence.
    rewrite E in H; simpl in H.
    apply (f_equal (@length event)) in H; rewrite length_app in H; simpl in H; lia.
  - intros A.
    destruct (handleApi_cases request env st)
      as [(A' & _)|[(_ & m' & P)|[(_ & b & P & N)|(_ & b & P & N)]]]; try congruence.
    + rewrite (handleApi_invalid_json request env st m' A P); exists []; reflexivity.
    + rewrite (handleApi_null_body request env st b A P N); exists []; reflexivity.
    + destruct (handleApi_parsed_runs request env st b A P N) as (r & d & _ & E & _).
      exists d; exact E.
Qed.

End DirectApiRuns.

(** ** The bearer token *)

Lemma split_space_nonempty (s : string) : exists h t, split_space s = h :: t.
Proof.
  induction s as [|c s (h & t & IH)]; simpl.
  - eauto.
  - destruct (Ascii.eqb c " "%char); [eauto|].
    rewrite IH; eauto.
Qed.

(** No piece of [s.split(" ")] contains a space. *)
Lemma split_space_no_space (s : string) :
  Forall (fun x => no_space x = true) (split_space s).
Proof.
  induction s as [|c s IH]; simpl.
  - repeat constructor.
  - destruct (Ascii.eqb c " "%char) eqn:E.
    + constructor; [reflexivity|exact IH].
    + destruct (split_space s) as [|h t].
      * repeat constructor; simpl; rewrite E; reflexivity.
      * inversion IH; subst; constructor; [simpl; rewrite E; assumption|assumption].
Qed.

Lemma split_space_word (t rest : string) :
  no_space t = true ->
  split_space (t ++ " " ++ rest) = t :: split_space rest.
Proof.
  induction t as [|c t IH]; simpl; intros H.
  - reflexivity.
  - apply andb_prop in H; destruct H as [Hc Ht].
    apply negb_true_iff in Hc; rewrite Hc.
    simpl in IH; rewrite (IH Ht); reflexivity.
Qed.

Lemma split_space_single (t : string) : no_space t = true -> split_space t = [t].
Proof.
  induction t as [|c t IH]; simpl; intros H.
  - reflexivity.
  - apply andb_prop in H; destruct H as [Hc Ht].
    apply negb_true_iff in Hc; rewrite Hc, (IH Ht); reflexivity.
Qed.

Lemma startsWith_Bearer_inv (a : string) :
  startsWith a "Bearer " = true -> exists rest, a = "Bearer " ++ rest.
Proof.
  intros H.
  do 7 (destruct a as [|? a]; cbn [startsWith] in H; [discriminate H|];
        apply andb_prop in H;
        let E := fresh "E" in destruct H as [E H]; apply Ascii.eqb_eq in E; subst).
  exists a; reflexivity.
Qed.

Lemma bearer_token_Bearer (rest : string) :
  bearer_token (Some ("Bearer " ++ rest)) = nth_error (split_space rest) 0.
Proof.
  unfold bearer_token, opt_to_string.
  destruct (split_space_nonempty rest) as (h & t & E).
  simpl; rewrite E; reflexivity.
Qed.

(** The token the handler compares is a piece of the header without space. *)
Lemma bearer_token_no_space (a : string) :
  startsWith a "Bearer " = true ->
  exists t, bearer_token (Some a) = Some t /\ no_space t = true.
Proof.
  intros H; destruct (startsWith_Bearer_inv a H) as (rest & ->).
  rewrite bearer_token_Bearer.
  pose proof (split_space_no_space rest) as F.
  destruct (split_space_nonempty rest) as (h & t & E); rewrite E in *.
  inversion F; subst; exists h; auto.
Qed.

Section BearerToken.

Context {R : Runtime}.

(** X10.  When the write token is not configured, or is configured with a
    space in it, no [Authorization] header passes: every request is answered
    with the [UNAUTHORIZED] or the [INVALID_TOKEN] nack, the state untouched. *)
Theorem api_unusable_write_token_rejects_all
    (request : Request) (env : Env) (st : state) :
  DA_WRITETOKEN env = None
  \/ (exists w, DA_WRITETOKEN env = Some w /\ no_space w = false) ->
  exists code message,
    handleApi request env st = (Return (nack (VStr "unknown") code message), st)
    /\ (code = "UNAUTHORIZED" \/ code = "INVALID_TOKEN").
Proof.
  intros H.
  destruct (handleApi_cases request env st)
    as [(_ & c & msg & E & Hc)|[(A & _)|[(A & _)|(A & _)]]]; [eauto| | |];
    exfalso;
    destruct (api_authorized_inv _ _ A) as (A1 & A2 & A3);
    destruct (header_Authorization request) as [a|]; try discriminate A1;
    destruct (bearer_token_no_space a A2) as (t & Ht & Hn);
    unfold bearer_token in Ht; simpl in A3, Ht; rewrite Ht in A3;
    apply opt_string_eqb_eq in A3;
    (destruct H as [H|(w & H & Hw)]; rewrite H in A3; [discriminate A3|]);
    inversion A3; subst; congruence.
Qed.

(** X11.  What follows the token is ignored: for a token [t] without space,
    the handler does with the header [Bearer t junk] exactly what it does
    with the header [Bearer t], whatever [junk] is. *)
Theorem api_bearer_token_ignores_trailing_words
    (request : Request) (env : Env) (st : state) (t junk : string) :
  no_space t = true ->
  handleApi (with_authorization request (Some ("Bearer " ++ t ++ " " ++ junk))) env st
  = handleApi (with_authorization request (Some ("Bearer " ++ t))) env st.
Proof.
  intros H.
  assert (B1 : nth_error (split_space (opt_to_string (Some ("Bearer " ++ t ++ " " ++ junk)))) 1
               = Some t).
  { change (bearer_token (Some ("Bearer " ++ t ++ " " ++ junk)) = Some t).
    rewrite bearer_token_Bearer, (split_space_word t junk H); reflexivity. }
  assert (B2 : nth_error (split_space (opt_to_string (Some ("Bearer " ++ t)))) 1 = Some t).
  { change (bearer_token (Some ("Bearer " ++ t)) = Some t).
    rewrite bearer_token_Bearer, (split_space_single t H); reflexivity. }
  assert (W : forall x, negb (truthy_opt (Some ("Bearer " ++ x)))
                        || negb (startsWith (opt_to_string (Some ("Bearer " ++ x)))
                                   "Bearer ") = false)
    by (intros x; destruct x; reflexivity).
  unfold handleApi, with_authorization; cbn [header_Authorization].
  rewrite B1, B2, (W t), (W (t ++ " " ++ junk)); reflexivity.
Qed.

End BearerToken.

(** ** Further properties of the notification sender *)

Section Sender.

Context {R : Runtime}.

Lemma notifyTextTelegram_noop (text : string) (st : state) :
  G_ENV st = None
  \/ (exists env,
        G_ENV st = Some env
        /\ (truthy_opt (LOG_TELEGRAM_BOT_TOKEN env) = false
            \/ truthy_opt (LOG_TELEGRAM_CHAT_ID env) = false)) ->
  notifyTextTelegram text st = (Return tt, st).
Proof.
  intros H; unfold notifyTextTelegram, try_catch.
  destruct H as [H|(env & H & [Hb|Hc])]; rewrite H; [reflexivity| |].
  - rewrite Hb; reflexivity.
  - rewrite Hc, orb_true_r; reflexivity.
Qed.

(** X12.  The raw-text sender is a silent no-op when the globals hold no
    environment, or one whose bot token or chat id is unset or empty: it
    returns without any effect. *)
Theorem notifyTextTelegram_unconfigured_is_noop (text : string) (st : state) :
  G_ENV st = None
  \/ (exists env,
        G_ENV st = Some env
        /\ (truthy_opt (LOG_TELEGRAM_BOT_TOKEN env) = false
            \/ truthy_opt (LOG_TELEGRAM_CHAT_ID env) = false)) ->
  notifyTextTelegram text st = (Return tt, st).
Proof.
  intros H; unfold notifyTextTelegram, try_catch.
  destruct H as [H|(env & H & H')]; rewrite H; [reflexivity|].
  destruct H' as [Hb|Hc]; [rewrite Hb|rewrite Hc, orb_true_r]; reflexivity.
Qed.

Lemma notifyTextTelegram_configured (text : string) (st : state) (env : Env) :
  G_ENV st = Some env ->
  truthy_opt (LOG_TELEGRAM_BOT_TOKEN env) = true ->
  truthy_opt (LOG_TELEGRAM_CHAT_ID env) = true ->
  notifyTextTelegram text st
  = (Return tt,
     extend st
       (Fetch ("https://api.telegram.org/bot" ++ opt_to_string (LOG_TELEGRAM_BOT_TOKEN env)
                 ++ "/sendMessage")
          "POST" [("Content-Type", "application/json")]
          (VObj [("chat_id", VStr (opt_to_string (LOG_TELEGRAM_CHAT_ID env)));
                 ("text", VStr text);
                 ("parse_mode", VStr "Markdown")])
        :: match fetch_outcome (trace st)
                   ("https://api.telegram.org/bot"
                      ++ opt_to_string (LOG_TELEGRAM_BOT_TOKEN env) ++ "/sendMessage")
                   (VObj [("chat_id", VStr (opt_to_string (LOG_TELEGRAM_CHAT_ID env)));
                          ("text", VStr text);
                          ("parse_mode", VStr "Markdown")])
           with
           | None => []
           | Some m => [ConsoleError ("notifyTelegramByLevel error: " ++ m)]
           end)).
Proof.
  intros H Hb Hc; unfold notifyTextTelegram, try_catch.
  rewrite H, Hb, Hc; cbn [negb orb]; cbv zeta; unfold js_fetch.
  destruct (fetch_outcome (trace st) _ _) as [m|].
  - unfold console_error, log; rewrite extend_extend; reflexivity.
  - reflexivity.
Qed.

(** X13.  With the bot token and the chat id configured, and a log event
    whose four fields convert to texts, the structured sender makes exactly
    one request to the bot's [sendMessage] address, carrying the chat id and
    the text built from those four texts; a failure of the transport is
    written to the console and not raised. *)
Theorem messageTelegram_sends_formatted_text
    (logData : value) (st : state) (env : Env)
    (message service instance level : string) :
  nullish logData = false ->
  ToString (prop logData "message") = Return message ->
  ToString (prop logData "service") = Return service ->
  ToString (prop logData "instance") = Return instance ->
  ToString (prop logData "level") = Return level ->
  G_ENV st = Some env ->
  truthy_opt (LOG_TELEGRAM_BOT_TOKEN env) = true ->
  truthy_opt (LOG_TELEGRAM_CHAT_ID env) = true ->
  exists failure,
    messageTelegram logData st
    = (Return tt,
       extend st
         (Call_messageTelegram logData
          :: Fetch ("https://api.telegram.org/bot"
                      ++ opt_to_string (LOG_TELEGRAM_BOT_TOKEN env) ++ "/sendMessage")
               "POST" [("Content-Type", "application/json")]
               (VObj [("chat_id", VStr (opt_to_string (LOG_TELEGRAM_CHAT_ID env)));
                      ("text",
                       VStr (message ++ nl ++ nl ++ "🧩 " ++ service ++ "/"
                               ++ instance ++ nl ++ "🔢 Level: " ++ level));
                      ("parse_mode", VStr "Markdown")])
          :: failure))
    /\ (failure = []
        \/ exists m, failure = [ConsoleError ("notifyTelegramByLevel error: " ++ m)]).
Proof.
  intros N Tm Ts Ti Tl H Hb Hc.
  unfold messageTelegram, bind at 1, log, try_catch.
  rewrite (bind_Return _ _ _ _ _ (get_Return _ _ _ N)), bind_lift, Tm.
  rewrite (bind_Return _ _ _ _ _ (get_Return _ _ _ N)), bind_lift, Ts.
  rewrite (bind_Return _ _ _ _ _ (get_Return _ _ _ N)), bind_lift, Ti.
  rewrite (bind_Return _ _ _ _ _ (get_Return _ _ _ N)), bind_lift, Tl.
  rewrite (notifyTextTelegram_configured _ (extend st [Call_messageTelegram logData]) env
             H Hb Hc).
  rewrite extend_extend.
  eexists; split; [reflexivity|].
  destruct (fetch_outcome _ _ _) as [m|]; [right; eexists; reflexivity|left; reflexivity].
Qed.

(** X24.  When one of the four fields of the log event does not convert to a
    text (an object with an own [toString] property, or an array holding
    one), the structured sender sends nothing: the TypeError of the template
    is caught and written to the console, whatever the configuration. *)
Theorem messageTelegram_unconvertible_field_sends_nothing
    (logData : value) (st : state) :
  nullish logData = false ->
  (exists e, ToString (prop logData "message") = Throw e)
  \/ (exists e, ToString (prop logData "service") = Throw e)
  \/ (exists e, ToString (prop logData "instance") = Throw e)
  \/ (exists e, ToString (prop logData "level") = Throw e) ->
  exists e,
    messageTelegram logData st
    = (Return tt,
       extend st [Call_messageTelegram logData;
                  ConsoleError ("notifyTelegramByLevel error: " ++ e)]).
Proof.
  intros N H.
  assert (caught : forall e,
            exists e',
              console_error ("notifyTelegramByLevel error: " ++ e)
                (extend st [Call_messageTelegram logData])
              = (Return tt,
                 extend st [Call_messageTelegram logData;
                            ConsoleError ("notifyTelegramByLevel error: " ++ e')])).
  { intros e; exists e; unfold console_error, log; rewrite extend_extend; reflexivity. }
  unfold messageTelegram, bind at 1, log, try_catch.
  rewrite (bind_Return _ _ _ _ _ (get_Return _ _ _ N)), bind_lift.
  destruct (ToString (prop logData "message")) as [m|e]; [|apply caught].
  rewrite (bind_Return _ _ _ _ _ (get_Return _ _ _ N)), bind_lift.
  destruct (ToString (prop logData "service")) as [s|e]; [|apply caught].
  rewrite (bind_Return _ _ _ _ _ (get_Return _ _ _ N)), bind_lift.
  destruct (ToString (prop logData "instance")) as [i|e]; [|apply caught].
  rewrite (bind_Return _ _ _ _ _ (get_Return _ _ _ N)), bind_lift.
  destruct (ToString (prop logData "level")) as [l|e]; [|apply caught].
  exfalso.
  destruct H as [(e & H)|[(e & H)|[(e & H)|(e & H)]]]; discriminate H.
Qed.

Lemma errDelegate_unconfigured (msg : string) (st : state) :
  G_ENV st = None ->
  errDelegate msg st = (Return tt, extend st [Call_errDelegate msg; ConsoleError msg]).
Proof.
  intros H; unfold errDelegate, bind, console_error, log.
  rewrite notifyTextTelegram_noop by (left; exact H).
  rewrite extend_extend; reflexivity.
Qed.

End Sender.

(** ** Further properties of the webhook handler *)

Section WebhookRuns.

Context {R : Runtime}.

Lemma returns_ret {A} (Q : A -> Prop) (a : A) : Q a -> returns Q (ret a).
Proof. intros H st; exact H. Qed.

Lemma returns_bind {A B} (P : A -> Prop) (Q : B -> Prop) (c : M A) (k : A -> M B) :
  returns P c -> (forall a, P a -> returns Q (k a)) -> returns Q (bind c k).
Proof.
  intros Hc Hk st; unfold bind.
  specialize (Hc st); destruct (c st) as [[a|m] st']; simpl in *; [|exact I].
  apply (Hk a Hc).
Qed.

Lemma returns_any {A} (c : M A) : returns (fun _ => True) c.
Proof. intros st; destruct (fst (c st)); exact I. Qed.

Lemma returns_try_catch {A} (Q : A -> Prop) (c : M A) (h : string -> M A) :
  returns Q c -> (forall m, returns Q (h m)) -> returns Q (try_catch c h).
Proof.
  intros Hc Hh st; unfold try_catch.
  specialize (Hc st); destruct (c st) as [[a|m] st']; simpl in *; [exact Hc|].
  apply Hh.
Qed.

Lemma always_try_catch {A} (Q : A -> Prop) (c : M A) (h : string -> M A) :
  returns Q c -> (forall m, always Q (h m)) -> always Q (try_catch c h).
Proof.
  intros Hc Hh st; unfold try_catch.
  specialize (Hc st); destruct (c st) as [[a|m] st']; simpl in *; [eauto|].
  apply Hh.
Qed.

Lemma always_report_then {A} (Q : A -> Prop) (msg : string) (a : A) :
  Q a -> always Q (errDelegate msg ;; ret a).
Proof.
  intros H st; destruct (errDelegate_spec msg st) as (tail & E & _).
  rewrite (bind_Return _ _ _ _ _ E); exists a; auto.
Qed.

Lemma handleAblyWebhook_always (request : Request) (env : Env) :
  always webhook_response (handleAblyWebhook request env).
Proof.
  unfold handleAblyWebhook; apply always_try_catch;
    [|intros m; apply always_report_then; unfold webhook_response; tauto].
  cbv zeta.
  destruct (negb (truthy_opt (header_X_Ably_Auth request))
            || negb (opt_string_eqb (header_X_Ably_Auth request) (ABLY_WEBHOOK_SECRET env))).
  - eapply returns_bind; [apply returns_any|intros _ _].
    apply returns_ret; unfold webhook_response; tauto.
  - eapply returns_bind; [apply returns_any|intros text _].
    apply returns_bind with
      (P := fun parsed : value + Response =>
              match parsed with
              | inl _ => True
              | inr r => r = text_response "Invalid JSON" 400
              end).
    + apply returns_try_catch.
      * eapply returns_bind; [apply returns_any|intros b _; apply returns_ret; exact I].
      * intros err; eapply returns_bind; [apply returns_any|intros _ _].
        apply returns_ret; reflexivity.
    + intros [b|r] H; [|subst r; apply returns_ret; unfold webhook_response; tauto].
      eapply returns_bind; [apply returns_any|intros items _].
      eapply returns_bind; [apply returns_any|intros messages _].
      destruct (negb (truthy messages) || negb (isArray messages)).
      * eapply returns_bind; [apply returns_any|intros _ _].
        apply returns_ret; unfold webhook_response; tauto.
      * eapply returns_bind; [apply returns_any|intros _ _].
        eapply returns_bind; [apply returns_any|intros _ _].
        eapply returns_bind; [apply returns_any|intros _ _].
        apply returns_ret; unfold webhook_response; tauto.
Qed.

(** X14.  The webhook handler never lets an exception escape: from every
    request, environment and state it returns one of its five plain-text
    responses (200 OK, 401, the two 400s, 500). *)
Theorem webhook_always_answers (request : Request) (env : Env) (st : state) :
  exists response,
    result_of (handleAblyWebhook request env) st = Return response
    /\ (response = text_response "OK" 200
        \/ response = text_response "Unauthorized" 401
        \/ response = text_response "Invalid JSON" 400
        \/ response = text_response "Invalid webhook format" 400
        \/ response = text_response "Internal Server Error" 500).
Proof.
  destruct (handleAblyWebhook_always request env st) as (response & E & H).
  exists response; split; [exact E|exact H].
Qed.

(** X15.  When the webhook secret is not configured, or is configured empty,
    no [X-Ably-Auth] header passes: every request is answered with the
    plain-text 401 and only written to the console. *)
Theorem webhook_unusable_secret_rejects_all
    (request : Request) (env : Env) (st : state) :
  ABLY_WEBHOOK_SECRET env = None \/ ABLY_WEBHOOK_SECRET env = Some "" ->
  handleAblyWebhook request env st
  = (Return (text_response "Unauthorized" 401),
     extend st [ConsoleError "❌ Invalid Ably webhook secret"]).
Proof.
  intros H.
  assert (E : negb (truthy_opt (header_X_Ably_Auth request))
              || negb (opt_string_eqb (header_X_Ably_Auth request)
                         (ABLY_WEBHOOK_SECRET env)) = true).
  { destruct (header_X_Ably_Auth request) as [h|]; [|reflexivity].
    destruct H as [H|H]; rewrite H; simpl.
    - apply orb_true_r.
    - destruct (String.eqb h ""); reflexivity. }
  unfold handleAblyWebhook, try_catch; cbv zeta; rewrite E; reflexivity.
Qed.

Lemma handleAblyWebhook_parse_error (request : Request) (env : Env) (st st' : state)
    (m : string) :
  webhook_authorized request env = true ->
  JSON_parse (body_text request) = inr m ->
  errDelegate ("❌ JSON parse error:" ++ m) (extend st [ReadBody]) = (Return tt, st') ->
  handleAblyWebhook request env st = (Return (text_response "Invalid JSON" 400), st').
Proof.
  intros A P E; destruct (webhook_authorized_inv _ _ A) as (A1 & A2).
  unfold handleAblyWebhook, try_catch at 1.
  rewrite A1, A2; cbn [negb orb].
  unfold bind at 1, request_text, bind at 1, log, ret at 1.
  unfold bind at 1, try_catch at 1, bind at 1, JSON_parse_M.
  rewrite P; unfold throw at 1.
  rewrite (bind_Return _ _ _ _ _ E); reflexivity.
Qed.

(** X16.  A webhook body that [JSON.parse] rejects is answered with the
    plain-text 400 ["Invalid JSON"] after one error report, the globals left
    as they were; the report travels with the environment of an earlier
    request, so that in a fresh isolate (no [G_ENV] yet) it is only written
    to the console and nothing is sent. *)
Theorem webhook_malformed_body_400
    (request : Request) (env : Env) (st : state) (m : string) :
  webhook_authorized request env = true ->
  JSON_parse (body_text request) = inr m ->
  (exists tail,
     quiet tail
     /\ handleAblyWebhook request env st
        = (Return (text_response "Invalid JSON" 400),
           extend st (ReadBody
                      :: Call_errDelegate ("❌ JSON parse error:" ++ m)
                      :: ConsoleError ("❌ JSON parse error:" ++ m)
                      :: tail)))
  /\ (G_ENV st = None ->
      handleAblyWebhook request env st
      = (Return (text_response "Invalid JSON" 400),
         extend st [ReadBody;
                    Call_errDelegate ("❌ JSON parse error:" ++ m);
                    ConsoleError ("❌ JSON parse error:" ++ m)])).
Proof.
  intros A P; split.
  - destruct (errDelegate_spec ("❌ JSON parse error:" ++ m) (extend st [ReadBody]))
      as (tail & E & Q).
    exists tail; split; [exact Q|].
    rewrite (handleAblyWebhook_parse_error request env st _ m A P E).
    rewrite extend_extend; reflexivity.
  - intros G.
    rewrite (handleAblyWebhook_parse_error request env st _ m A P
               (errDelegate_unconfigured _ (extend st [ReadBody]) G)).
    rewrite extend_extend; reflexivity.
Qed.

Lemma handleAblyWebhook_no_array (request : Request) (env : Env) (st st' : state)
    (b : value) :
  webhook_authorized request env = true ->
  JSON_parse (body_text request) = inl b ->
  nullish b = false ->
  isArray (messages_of b) = false ->
  errDelegate "❌ No messages in webhook payload" (extend st [ReadBody]) = (Return tt, st') ->
  handleAblyWebhook request env st
  = (Return (text_response "Invalid webhook format" 400), st').
Proof.
  intros A P N I E; destruct (webhook_authorized_inv _ _ A) as (A1 & A2).
  unfold handleAblyWebhook, try_catch at 1.
  rewrite A1, A2; cbn [negb orb].
  unfold bind at 1, request_text, bind at 1, log, ret at 1.
  unfold bind at 1, try_catch at 1, bind at 1, JSON_parse_M.
  rewrite P; unfold ret at 1 2.
  rewrite (bind_Return _ _ _ _ _ (get_Return b "items" _ N)).
  assert (Em : (if truthy (prop b "items") then ret (prop b "items")
                else get b "messages") (extend st [ReadBody])
               = (Return (messages_of b), extend st [ReadBody])).
  { unfold messages_of.
    destruct (truthy (prop b "items")); [reflexivity|].
    apply get_Return; exact N. }
  rewrite (bind_Return _ _ _ _ _ Em), I, orb_true_r.
  rewrite (bind_Return _ _ _ _ _ E); reflexivity.
Qed.

(** X17.  A parsed webhook body in which [items] (when truthy, whatever
    [messages] holds) or else [messages] is not an array is answered with the
    plain-text 400 ["Invalid webhook format"] after one error report; no
    message is processed and the globals are left as they were. *)
Theorem webhook_without_array_400
    (request : Request) (env : Env) (st : state) (b : value) :
  webhook_authorized request env = true ->
  JSON_parse (body_text request) = inl b ->
  nullish b = false ->
  isArray (if truthy (prop b "items") then prop b "items" else prop b "messages") = false ->
  exists tail,
    quiet tail
    /\ handleAblyWebhook request env st
       = (Return (text_response "Invalid webhook format" 400),
          extend st (ReadBody
                     :: Call_errDelegate "❌ No messages in webhook payload"
                     :: ConsoleError "❌ No messages in webhook payload"
                     :: tail)).
Proof.
  intros A P N I.
  destruct (errDelegate_spec "❌ No messages in webhook payload" (extend st [ReadBody]))
    as (tail & E & Q).
  exists tail; split; [exact Q|].
  rewrite (handleAblyWebhook_no_array request env st _ b A P N I E).
  rewrite extend_extend; reflexivity.
Qed.

End WebhookRuns.

Section WebhookBatches.

Context {R : Runtime}.

Lemma handleAblyWebhook_batch_run (request : Request) (env : Env) (st : state)
    (b : value) (msgs : list value) :
  webhook_authorized request env = true ->
  JSON_parse (body_text request) = inl b ->
  messages_of b = VArr msgs ->
  Forall (fun m => nullish m = false) msgs ->
  exists delta,
    handleAblyWebhook request env st
    = (Return (text_response "OK" 200),
       extend (with_env env (extend st [ReadBody])) delta)
    /\ (forall d, DB env = Some d ->
        filter is_storage_call delta = flat_map message_rows msgs).
Proof.
  intros A P Hm Hall.
  rewrite (handleAblyWebhook_batch request env st b msgs A P Hm).
  destruct (for_of_webhook_spec msgs (with_env env (extend st [ReadBody])) Hall)
    as (delta & E & S).
  exists delta; split.
  - unfold try_catch; rewrite (bind_Return _ _ _ _ _ E); reflexivity.
  - intros d Hd; apply (S d); unfold with_env; simpl; rewrite Hd; reflexivity.
Qed.

(** X18.  A batch accepted by the secret test and without [null] element is
    answered with 200 ["OK"] whatever its messages hold; with the [DB]
    binding configured, the storage calls of the run are the inserts of the
    messages whose [data] decodes to an object payload passing the field
    test, one each, in array order. *)
Theorem webhook_batch_inserts_valid_messages_in_order
    (request : Request) (env : Env) (st : state) (b : value) (msgs : list value) :
  webhook_authorized request env = true ->
  JSON_parse (body_text request) = inl b ->
  (if truthy (prop b "items") then prop b "items" else prop b "messages") = VArr msgs ->
  Forall (fun m => nullish m = false) msgs ->
  exists delta,
    result_of (handleAblyWebhook request env) st = Return (text_response "OK" 200)
    /\ trace_of (handleAblyWebhook request env) st = (trace st ++ ReadBody :: delta)%list
    /\ (forall d, DB env = Some d ->
        filter is_storage_call delta = flat_map message_rows msgs).
Proof.
  intros A P Hm Hall; unfold result_of, trace_of.
  destruct (handleAblyWebhook_batch_run request env st b msgs A P Hm Hall)
    as (delta & E & S).
  exists delta; rewrite E; split; [reflexivity|]; split; [|exact S].
  simpl; rewrite <- app_assoc; reflexivity.
Qed.

(** X19.  Nothing guards against redelivery: handling the same accepted
    batch a second time, from the state the first run left, issues the same
    inserts again. *)
Theorem webhook_replay_inserts_again
    (request : Request) (env : Env) (st : state) (b : value) (msgs : list value)
    (d : D1Database) :
  webhook_authorized request env = true ->
  JSON_parse (body_text request) = inl b ->
  (if truthy (prop b "items") then prop b "items" else prop b "messages") = VArr msgs ->
  Forall (fun m => nullish m = false) msgs ->
  DB env = Some d ->
  exists first second,
    trace_of (handleAblyWebhook request env) st = (trace st ++ first)%list
    /\ trace_of (handleAblyWebhook request env) (snd (handleAblyWebhook request env st))
       = (trace st ++ first ++ second)%list
    /\ filter is_storage_call first = flat_map message_rows msgs
    /\ filter is_storage_call second = flat_map message_rows msgs.
Proof.
  intros A P Hm Hall Hd; unfold trace_of.
  destruct (handleAblyWebhook_batch_run request env st b msgs A P Hm Hall)
    as (d1 & E1 & S1).
  rewrite E1; cbn [snd].
  destruct (handleAblyWebhook_batch_run request env
              (extend (with_env env (extend st [ReadBody])) d1) b msgs A P Hm Hall)
    as (d2 & E2 & S2).
  rewrite E2.
  exists (ReadBody :: d1), (ReadBody :: d2); split; [|split; [|split]].
  - simpl; rewrite <- app_assoc; reflexivity.
  - simpl; rewrite <- !app_assoc; reflexivity.
  - simpl; exact (S1 d Hd).
  - simpl; exact (S2 d Hd).
Qed.

Lemma webhook_message_null (x : value) (st : state) :
  nullish x = true ->
  webhook_message x st = (Throw (type_error_read x "data"), st).
Proof. intros N; unfold webhook_message, bind, get; rewrite N; reflexivity. Qed.

(** X20.  A [null] element stops the batch: the messages before it are
    handled as usual (their inserts are issued), the read of [msg.data]
    throws outside the per-message guards, the outer guard reports the
    TypeError and answers 500, and the elements after it are never looked
    at. *)
Theorem webhook_null_element_aborts_batch
    (request : Request) (env : Env) (st : state) (b x : value)
    (pre post : list value) :
  webhook_authorized request env = true ->
  JSON_parse (body_text request) = inl b ->
  (if truthy (prop b "items") then prop b "items" else prop b "messages")
  = VArr (pre ++ x :: post) ->
  Forall (fun m => nullish m = false) pre ->
  nullish x = true ->
  exists handled tail,
    quiet tail
    /\ for_of pre webhook_message (with_env env (extend st [ReadBody]))
       = (Return tt, extend (with_env env (extend st [ReadBody])) handled)
    /\ handleAblyWebhook request env st
       = (Return (text_response "Internal Server Error" 500),
          extend (with_env env (extend st [ReadBody]))
            (handled
             ++ Call_errDelegate ("Webhook error: " ++ type_error_read x "data")
                :: ConsoleError ("Webhook error: " ++ type_error_read x "data")
                :: tail))
    /\ (forall d, DB env = Some d ->
        filter is_storage_call handled = flat_map message_rows pre).
Proof.
  intros A P Hm Hpre Nx.
  rewrite (handleAblyWebhook_batch request env st b _ A P Hm).
  set (st0 := with_env env (extend st [ReadBody])).
  destruct (for_of_webhook_spec pre st0 Hpre) as (d1 & E1 & S1).
  destruct (errDelegate_spec ("Webhook error: " ++ type_error_read x "data")
              (extend st0 d1)) as (tail & E2 & Q2).
  exists d1, tail; split; [exact Q2|]; split; [exact E1|]; split.
  - assert (E : for_of (pre ++ x :: post) webhook_message st0
                = (Throw (type_error_read x "data"), extend st0 d1)).
    { rewrite for_of_app, (bind_Return _ _ _ _ _ E1); simpl.
      apply bind_Throw, webhook_message_null; exact Nx. }
    unfold try_catch; rewrite (bind_Throw _ _ _ _ _ E).
    rewrite (bind_Return _ _ _ _ _ E2), extend_extend; reflexivity.
  - intros d Hd; apply (S1 d); unfold st0, with_env; simpl; rewrite Hd; reflexivity.
Qed.

(** X21.  A message that carries nothing to ingest is skipped without a
    trace: when its [data] is absent or falsy, or decodes to a value whose
    [payload] is absent, falsy or not an object, the loop body changes
    nothing (no pipeline call, no report). *)
Theorem webhook_message_silent_skip (msg : value) (st : state) :
  nullish msg = false ->
  truthy (prop msg "data") = false
  \/ (exists v,
        JSON_parse_value (prop msg "data") = inl v
        /\ (truthy (optional_prop v "payload") = false
            \/ typeof (optional_prop v "payload") <> "object")) ->
  webhook_message msg st = (Return tt, st).
Proof.
  intros N H.
  destruct (truthy (prop msg "data")) eqn:T;
    [|apply webhook_message_no_data; assumption].
  destruct H as [H|(v & P & H)]; [discriminate H|].
  rewrite (webhook_message_data msg st N T), P; cbv zeta.
  destruct H as [H|H].
  - rewrite H; reflexivity.
  - apply String.eqb_neq in H; rewrite H, orb_true_r; reflexivity.
Qed.

(** X26.  In the webhook loop, a message whose truthy [data] makes
    [JSON.parse(msg.data)] throw, be it the parser rejecting the text or the
    conversion of [data] to a text failing, is reported once through
    [errDelegate] and skipped: the pipeline is not called. *)
Theorem webhook_message_undecodable_data_is_reported
    (msg : value) (st : state) (err : string) :
  nullish msg = false ->
  truthy (prop msg "data") = true ->
  JSON_parse_value (prop msg "data") = inr err ->
  exists tail,
    quiet tail
    /\ webhook_message msg st
       = (Return tt,
          extend st (Call_errDelegate ("❌ Could not parse message.data JSON: " ++ err)
                     :: ConsoleError ("❌ Could not parse message.data JSON: " ++ err)
                     :: tail)).
Proof.
  intros N T P.
  rewrite (webhook_message_data msg st N T), P.
  destruct (errDelegate_spec ("❌ Could not parse message.data JSON: " ++ err) st)
    as (tail & E & Q).
  exists tail; split; [exact Q|].
  rewrite (bind_Return _ _ _ _ _ E); reflexivity.
Qed.

End WebhookBatches.

(** ** The worker as a whole *)

Section WorkerRuns.

Context {R : Runtime}.

Lemma handleAblyWebhook_unauthorized (request : Request) (env : Env) (st : state) :
  webhook_authorized request env = false ->
  handleAblyWebhook request env st
  = (Return (text_response "Unauthorized" 401),
     extend st [ConsoleError "❌ Invalid Ably webhook secret"]).
Proof.
  unfold webhook_authorized; intros H.
  assert (E : negb (truthy_opt (header_X_Ably_Auth request))
              || negb (opt_string_eqb (header_X_Ably_Auth request)
                         (ABLY_WEBHOOK_SECRET env)) = true).
  { rewrite <- negb_andb, H; reflexivity. }
  unfold handleAblyWebhook, try_catch; cbv zeta; rewrite E; reflexivity.
Qed.

(** X22.  The worker lets an exception escape in exactly one situation: a
    POST on [/api] that passed the credential test and whose body is the JSON
    [null].  Every other request is answered. *)
Theorem worker_throws_exactly_on_null_api_body
    (request : Request) (env : Env) (st : state) :
  (exists m, result_of (fetch request env) st = Throw m)
  <-> (method request = "POST"
       /\ pathname request = "/api"
       /\ api_authorized request env = true
       /\ exists b, JSON_parse (body_text request) = inl b /\ nullish b = true).
Proof.
  unfold result_of, fetch.
  destruct (String.eqb (method request) "POST") eqn:Me; cbn [negb].
  - apply String.eqb_eq in Me.
    destruct (String.eqb (pathname request) "/api") eqn:Pa.
    + apply String.eqb_eq in Pa; split.
      * intros (m & H); split; [exact Me|]; split; [exact Pa|].
        destruct (handleApi_cases request env st)
          as [(_ & c & msg & E & _)|[(A & m' & P)|[(A & b & P & N)|(A & b & P & N)]]].
        -- rewrite E in H; discriminate H.
        -- rewrite (handleApi_invalid_json request env st m' A P) in H; discriminate H.
        -- eauto.
        -- destruct (handleApi_parsed_runs request env st b A P N) as (r & d & E & _).
           unfold result_of in E; rewrite E in H; discriminate H.
      * intros (_ & _ & A & b & P & N).
        rewrite (handleApi_null_body request env st b A P N); eexists; reflexivity.
    + apply String.eqb_neq in Pa; split; [|intros (_ & H & _); contradiction].
      intros (m & H); exfalso.
      destruct (String.eqb (pathname request) "/ably"); [|discriminate H].
      destruct (handleAblyWebhook_always request env st) as (r & E & _).
      rewrite E in H; discriminate H.
  - apply String.eqb_neq in Me; split; [|intros (H & _); contradiction].
    intros (m & H); discriminate H.
Qed.

(** X23.  The worker stores nothing for a request it has not let in: if a run
    adds a storage call, the request is a POST on [/api] that passed the
    bearer test or a POST on [/ably] that passed the secret test. *)
Theorem worker_stores_only_for_accepted_requests
    (request : Request) (env : Env) (st : state) (delta : list event) :
  trace_of (fetch request env) st = (trace st ++ delta)%list ->
  filter is_storage_call delta <> [] ->
  method request = "POST"
  /\ ((pathname request = "/api" /\ api_authorized request env = true)
      \/ (pathname request = "/ably" /\ webhook_authorized request env = true)).
Proof.
  unfold trace_of, fetch; intros E S.
  assert (Hnil : trace st = (trace st ++ delta)%list -> False).
  { intros H; rewrite <- (app_nil_r (trace st)) in H at 1.
    apply app_inv_head in H; subst delta; apply S; reflexivity. }
  destruct (String.eqb (method request) "POST") eqn:Me; cbn [negb] in E;
    [|exfalso; exact (Hnil E)].
  apply String.eqb_eq in Me; split; [exact Me|].
  destruct (String.eqb (pathname request) "/api") eqn:Pa.
  - apply String.eqb_eq in Pa; left; split; [exact Pa|].
    destruct (api_authorized request env) eqn:A; [reflexivity|exfalso].
    destruct (handleApi_cases request env st)
      as [(_ & c & msg & E' & _)|[(A' & _)|[(A' & _)|(A' & _)]]]; try congruence.
    rewrite E' in E; exact (Hnil E).
  - destruct (String.eqb (pathname request) "/ably") eqn:Pb; [|exfalso; exact (Hnil E)].
    apply String.eqb_eq in Pb; right; split; [exact Pb|].
    destruct (webhook_authorized request env) eqn:A; [reflexivity|exfalso].
    rewrite (handleAblyWebhook_unauthorized request env st A) in E; simpl in E.
    apply app_inv_head in E; subst delta; apply S; reflexivity.
Qed.

End WorkerRuns.

(** ** The further properties on concrete inputs *)

Lemma api_low_level_ack_without_notification_witness :
  result_of (@handleApi ex_runtime ex_low_request (ex_env (Some ex_db))) initial_state
  = Return (ack (VStr "r-1"))
  /\ trace_of (@handleApi ex_runtime ex_low_request (ex_env (Some ex_db))) initial_state
     = [ReadBody;
        Call_handleApiRequest (VStr "r-1") (ex_payload (VNum pos_zero));
        D1Run insert_sql [VStr "billing"; VStr "eu-1"; VNum pos_zero; VStr "disk full"]].
Proof.
  exact (@api_low_level_ack_without_notification ex_runtime ex_low_request
           (ex_env (Some ex_db)) initial_state ex_low_body ex_db
           eq_refl eq_refl eq_refl eq_refl eq_refl eq_refl).
Defined.

Lemma api_insert_rejected_DB_ERROR_witness :
  exists tail,
    quiet tail
    /\ result_of (@handleApi ex_runtime ex_low_request (ex_env (Some ex_db_down)))
         initial_state
       = Return (nack (VStr "r-1") "DB_ERROR" "D1_ERROR: no such table")
    /\ trace_of (@handleApi ex_runtime ex_low_request (ex_env (Some ex_db_down)))
         initial_state
       = ([] ++ [ReadBody;
                 Call_handleApiRequest (VStr "r-1") (ex_payload (VNum pos_zero));
                 D1Run insert_sql (row_of (ex_payload (VNum pos_zero)));
                 Call_errDelegate ("handleApiRequest failed: " ++ "D1_ERROR: no such table");
                 ConsoleError ("handleApiRequest failed: " ++ "D1_ERROR: no such table")]
          ++ tail)%list.
Proof.
  exact (@api_insert_rejected_DB_ERROR ex_runtime ex_low_request
           (ex_env (Some ex_db_down)) initial_state ex_low_body ex_db_down
           "D1_ERROR: no such table" eq_refl eq_refl eq_refl eq_refl eq_refl).
Defined.

Lemma api_missing_binding_DB_ERROR_witness :
  exists tail,
    quiet tail
    /\ result_of (@handleApi ex_runtime ex_low_request (ex_env None)) initial_state
       = Return (nack (VStr "r-1") "DB_ERROR"
                   "Cannot read properties of undefined (reading 'prepare')")
    /\ trace_of (@handleApi ex_runtime ex_low_request (ex_env None)) initial_state
       = ([] ++ [ReadBody;
                 Call_handleApiRequest (VStr "r-1") (ex_payload (VNum pos_zero));
                 Call_errDelegate
                   ("handleApiRequest failed: "
                      ++ "Cannot read properties of undefined (reading 'prepare')");
                 ConsoleError
                   ("handleApiRequest failed: "
                      ++ "Cannot read properties of undefined (reading 'prepare')")]
          ++ tail)%list.
Proof.
  exact (@api_missing_binding_DB_ERROR ex_runtime ex_low_request (ex_env None)
           initial_state ex_low_body eq_refl eq_refl eq_refl eq_refl).
Defined.

Lemma api_malformed_body_INVALID_JSON_witness :
  @handleApi ex_runtime (ex_api_request (Some "Bearer write-token") "{oops")
    (ex_env (Some ex_db)) initial_state
  = (Return (nack (VStr "unknown") "INVALID_JSON" "Malformed JSON body"),
     extend initial_state [ReadBody]).
Proof.
  exact (@api_malformed_body_INVALID_JSON ex_runtime
           (ex_api_request (Some "Bearer write-token") "{oops")
           (ex_env (Some ex_db)) initial_state "Unexpected token" eq_refl eq_refl).
Defined.

Lemma api_throws_exactly_on_null_body_witness :
  exists m,
    result_of (@handleApi ex_runtime_null (ex_api_request (Some "Bearer write-token") "null")
                 (ex_env (Some ex_db))) initial_state
    = Throw m.
Proof.
  apply (proj2 (@api_throws_exactly_on_null_body ex_runtime_null
                  (ex_api_request (Some "Bearer write-token") "null")
                  (ex_env (Some ex_db)) initial_state)).
  split; [reflexivity|]; exists VNull; split; reflexivity.
Defined.

Lemma api_answer_carries_request_id_witness :
  exists response,
    result_of (@handleApi ex_runtime
                 (ex_api_request (Some "Bearer write-token")
                    (ex_api_text ex_payload_no_level_text))
                 (ex_env (Some ex_db))) initial_state
    = Return response
    /\ (response = ack (VStr "r-1")
        \/ exists code message,
             response = nack (VStr "r-1") code message
             /\ (code = "INVALID_FIELD" \/ code = "MissingField" \/ code = "DB_ERROR")).
Proof.
  exact (@api_answer_carries_request_id ex_runtime
           (ex_api_request (Some "Bearer write-token")
              (ex_api_text ex_payload_no_level_text))
           (ex_env (Some ex_db)) initial_state (ex_api_body ex_payload_no_level)
           eq_refl eq_refl eq_refl).
Defined.

Lemma api_reads_body_iff_authorized_witness :
  exists delta,
    trace_of (@handleApi ex_runtime ex_low_request (ex_env (Some ex_db))) initial_state
    = ([] ++ ReadBody :: delta)%list.
Proof.
  apply (proj2 (proj1 (@api_reads_body_iff_authorized ex_runtime ex_low_request
                         (ex_env (Some ex_db)) initial_state))).
  reflexivity.
Defined.

Lemma api_unusable_write_token_rejects_all_witness :
  exists code message,
    @handleApi ex_runtime (ex_api_request (Some "Bearer two words") "{}")
      (ex_env_with (Some "two words") (Some "hook-secret")) initial_state
    = (Return (nack (VStr "unknown") code message), initial_state)
    /\ (code = "UNAUTHORIZED" \/ code = "INVALID_TOKEN").
Proof.
  apply (@api_unusable_write_token_rejects_all ex_runtime
           (ex_api_request (Some "Bearer two words") "{}")
           (ex_env_with (Some "two words") (Some "hook-secret")) initial_state).
  right; exists "two words"; split; reflexivity.
Defined.

Lemma api_bearer_token_ignores_trailing_words_witness :
  @handleApi ex_runtime
    (with_authorization ex_low_request
       (Some ("Bearer " ++ "write-token" ++ " " ++ "and anything else")))
    (ex_env (Some ex_db)) initial_state
  = @handleApi ex_runtime
      (with_authorization ex_low_request (Some ("Bearer " ++ "write-token")))
      (ex_env (Some ex_db)) initial_state.
Proof.
  apply (@api_bearer_token_ignores_trailing_words ex_runtime ex_low_request
           (ex_env (Some ex_db)) initial_state "write-token" "and anything else").
  reflexivity.
Defined.

Lemma notifyTextTelegram_unconfigured_is_noop_witness :
  @notifyTextTelegram ex_runtime "disk full" initial_state = (Return tt, initial_state).
Proof.
  apply (@notifyTextTelegram_unconfigured_is_noop ex_runtime "disk full" initial_state).
  left; reflexivity.
Defined.

Lemma messageTelegram_sends_formatted_text_witness :
  exists failure,
    @messageTelegram ex_runtime (ex_payload (VNum num_five)) (ex_state ex_db)
    = (Return tt,
       extend (ex_state ex_db)
         (Call_messageTelegram (ex_payload (VNum num_five))
          :: Fetch "https://api.telegram.org/botbot/sendMessage" "POST"
               [("Content-Type", "application/json")]
               (VObj [("chat_id", VStr "chat");
                      ("text",
                       VStr ("disk full" ++ nl ++ nl ++ "🧩 " ++ "billing" ++ "/"
                               ++ "eu-1" ++ nl ++ "🔢 Level: " ++ "5"));
                      ("parse_mode", VStr "Markdown")])
          :: failure))
    /\ (failure = []
        \/ exists m, failure = [ConsoleError ("notifyTelegramByLevel error: " ++ m)]).
Proof.
  exact (@messageTelegram_sends_formatted_text ex_runtime (ex_payload (VNum num_five))
           (ex_state ex_db) (ex_env (Some ex_db)) "disk full" "billing" "eu-1" "5"
           eq_refl eq_refl eq_refl eq_refl eq_refl eq_refl eq_refl eq_refl).
Defined.

Lemma webhook_unusable_secret_rejects_all_witness :
  @handleAblyWebhook ex_runtime (ex_webhook_request (Some "") ex_batch_text)
    (ex_env_with (Some "write-token") (Some "")) initial_state
  = (Return (text_response "Unauthorized" 401),
     extend initial_state [ConsoleError "❌ Invalid Ably webhook secret"]).
Proof.
  apply (@webhook_unusable_secret_rejects_all ex_runtime
           (ex_webhook_request (Some "") ex_batch_text)
           (ex_env_with (Some "write-token") (Some "")) initial_state).
  right; reflexivity.
Defined.

Lemma webhook_malformed_body_400_witness :
  @handleAblyWebhook ex_runtime (ex_webhook_request (Some "hook-secret") "{oops")
    (ex_env (Some ex_db)) initial_state
  = (Return (text_response "Invalid JSON" 400),
     extend initial_state
       [ReadBody;
        Call_errDelegate ("❌ JSON parse error:" ++ "Unexpected token");
        ConsoleError ("❌ JSON parse error:" ++ "Unexpected token")]).
Proof.
  apply (proj2 (@webhook_malformed_body_400 ex_runtime
                  (ex_webhook_request (Some "hook-secret") "{oops")
                  (ex_env (Some ex_db)) initial_state "Unexpected token"
                  eq_refl eq_refl)).
  reflexivity.
Defined.

Lemma webhook_without_array_400_witness :
  exists tail,
    quiet tail
    /\ @handleAblyWebhook ex_runtime
         (ex_webhook_request (Some "hook-secret") (ex_api_text (ex_payload_text "0")))
         (ex_env (Some ex_db)) initial_state
       = (Return (text_response "Invalid webhook format" 400),
          extend initial_state
            (ReadBody
             :: Call_errDelegate "❌ No messages in webhook payload"
             :: ConsoleError "❌ No messages in webhook payload"
             :: tail)).
Proof.
  exact (@webhook_without_array_400 ex_runtime
           (ex_webhook_request (Some "hook-secret") (ex_api_text (ex_payload_text "0")))
           (ex_env (Some ex_db)) initial_state ex_low_body
           eq_refl eq_refl eq_refl eq_refl).
Defined.

Lemma webhook_batch_inserts_valid_messages_in_order_witness :
  exists delta,
    result_of (@handleAblyWebhook ex_runtime
                 (ex_webhook_request (Some "hook-secret") ex_batch_text)
                 (ex_env (Some ex_db))) initial_state
    = Return (text_response "OK" 200)
    /\ trace_of (@handleAblyWebhook ex_runtime
                   (ex_webhook_request (Some "hook-secret") ex_batch_text)
                   (ex_env (Some ex_db))) initial_state
       = ([] ++ ReadBody :: delta)%list
    /\ (forall d, Some ex_db = Some d ->
        filter is_storage_call delta
        = [D1Run insert_sql [VStr "billing"; VStr "eu-1"; VNum pos_zero; VStr "disk full"];
           D1Run insert_sql [VStr "billing"; VStr "eu-1"; VNum num_five; VStr "disk full"]]).
Proof.
  apply (@webhook_batch_inserts_valid_messages_in_order ex_runtime
           (ex_webhook_request (Some "hook-secret") ex_batch_text)
           (ex_env (Some ex_db)) initial_state (VObj [("items", VArr ex_batch)]) ex_batch).
  - reflexivity.
  - reflexivity.
  - reflexivity.
  - repeat constructor.
Defined.

Lemma webhook_replay_inserts_again_witness :
  exists first second,
    trace_of (@handleAblyWebhook ex_runtime
                (ex_webhook_request (Some "hook-secret") ex_batch_text)
                (ex_env (Some ex_db))) initial_state
    = ([] ++ first)%list
    /\ trace_of (@handleAblyWebhook ex_runtime
                   (ex_webhook_request (Some "hook-secret") ex_batch_text)
                   (ex_env (Some ex_db)))
         (snd (@handleAblyWebhook ex_runtime
                 (ex_webhook_request (Some "hook-secret") ex_batch_text)
                 (ex_env (Some ex_db)) initial_state))
       = ([] ++ first ++ second)%list
    /\ filter is_storage_call first
       = [D1Run insert_sql [VStr "billing"; VStr "eu-1"; VNum pos_zero; VStr "disk full"];
          D1Run insert_sql [VStr "billing"; VStr "eu-1"; VNum num_five; VStr "disk full"]]
    /\ filter is_storage_call second
       = [D1Run insert_sql [VStr "billing"; VStr "eu-1"; VNum pos_zero; VStr "disk full"];
          D1Run insert_sql [VStr "billing"; VStr "eu-1"; VNum num_five; VStr "disk full"]].
Proof.
  apply (@webhook_replay_inserts_again ex_runtime
           (ex_webhook_request (Some "hook-secret") ex_batch_text)
           (ex_env (Some ex_db)) initial_state (VObj [("items", VArr ex_batch)]) ex_batch
           ex_db).
  - reflexivity.
  - reflexivity.
  - reflexivity.
  - repeat constructor.
  - reflexivity.
Defined.

Lemma webhook_null_element_aborts_batch_witness :
  exists handled tail,
    quiet tail
    /\ for_of [ex_message ex_bad_data] (@webhook_message ex_runtime)
         (with_env (ex_env (Some ex_db)) (extend initial_state [ReadBody]))
       = (Return tt,
          extend (with_env (ex_env (Some ex_db)) (extend initial_state [ReadBody])) handled)
    /\ @handleAblyWebhook ex_runtime
         (ex_webhook_request (Some "hook-secret") ex_batch_null_text)
         (ex_env (Some ex_db)) initial_state
       = (Return (text_response "Internal Server Error" 500),
          extend (with_env (ex_env (Some ex_db)) (extend initial_state [ReadBody]))
            (handled
             ++ Call_errDelegate
                  ("Webhook error: " ++ "Cannot read properties of null (reading 'data')")
                :: ConsoleError
                     ("Webhook error: " ++ "Cannot read properties of null (reading 'data')")
                :: tail))
    /\ (forall d, Some ex_db = Some d -> filter is_storage_call handled = []).
Proof.
  apply (@webhook_null_element_aborts_batch ex_runtime
           (ex_webhook_request (Some "hook-secret") ex_batch_null_text)
           (ex_env (Some ex_db)) initial_state
           (VObj [("items", VArr [ex_message ex_bad_data; VNull])]) VNull
           [ex_message ex_bad_data] []).
  - reflexivity.
  - reflexivity.
  - reflexivity.
  - repeat constructor.
  - reflexivity.
Defined.

Lemma webhook_message_silent_skip_witness :
  @webhook_message ex_runtime (VObj [("name", VStr "heartbeat")]) (ex_state ex_db)
  = (Return tt, ex_state ex_db).
Proof.
  apply (@webhook_message_silent_skip ex_runtime (VObj [("name", VStr "heartbeat")])
           (ex_state ex_db)).
  - reflexivity.
  - left; reflexivity.
Defined.

Lemma worker_throws_exactly_on_null_api_body_witness :
  exists m,
    result_of (@fetch ex_runtime_null (ex_api_request (Some "Bearer write-token") "null")
                 (ex_env (Some ex_db))) initial_state
    = Throw m.
Proof.
  apply (proj2 (@worker_throws_exactly_on_null_api_body ex_runtime_null
                  (ex_api_request (Some "Bearer write-token") "null")
                  (ex_env (Some ex_db)) initial_state)).
  split; [reflexivity|]; split; [reflexivity|]; split; [reflexivity|].
  exists VNull; split; reflexivity.
Defined.

Lemma worker_stores_only_for_accepted_requests_witness :
  method ex_low_request = "POST"
  /\ ((pathname ex_low_request = "/api"
       /\ api_authorized ex_low_request (ex_env (Some ex_db)) = true)
      \/ (pathname ex_low_request = "/ably"
          /\ webhook_authorized ex_low_request (ex_env (Some ex_db)) = true)).
Proof.
  apply (@worker_stores_only_for_accepted_requests ex_runtime ex_low_request
           (ex_env (Some ex_db)) initial_state
           [ReadBody;
            Call_handleApiRequest (VStr "r-1") (ex_payload (VNum pos_zero));
            D1Run insert_sql [VStr "billing"; VStr "eu-1"; VNum pos_zero; VStr "disk full"]]).
  - reflexivity.
  - discriminate.
Defined.

Lemma messageTelegram_unconvertible_field_sends_nothing_witness :
  exists e,
    @messageTelegram ex_runtime
      (VObj [("service", VStr "billing"); ("instance", VStr "eu-1");
             ("level", VNum num_five); ("message", ex_odd)])
      (ex_state ex_db)
    = (Return tt,
       extend (ex_state ex_db)
         [Call_messageTelegram
            (VObj [("service", VStr "billing"); ("instance", VStr "eu-1");
                   ("level", VNum num_five); ("message", ex_odd)]);
          ConsoleError ("notifyTelegramByLevel error: " ++ e)]).
Proof.
  apply (@messageTelegram_unconvertible_field_sends_nothing ex_runtime
           (VObj [("service", VStr "billing"); ("instance", VStr "eu-1");
                  ("level", VNum num_five); ("message", ex_odd)])
           (ex_state ex_db)).
  - reflexivity.
  - left; exists coercion_error; reflexivity.
Defined.

Lemma api_unconvertible_level_DB_ERROR_after_insert_witness :
  exists tail,
    quiet tail
    /\ result_of (@handleApi ex_runtime_odd
                    (ex_api_request (Some "Bearer write-token")
                       (ex_api_text (ex_payload_text ex_odd_text)))
                    (ex_env (Some ex_db))) initial_state
       = Return (nack (VStr "r-1") "DB_ERROR" "Cannot convert object to primitive value")
    /\ trace_of (@handleApi ex_runtime_odd
                     (ex_api_request (Some "Bearer write-token")
                        (ex_api_text (ex_payload_text ex_odd_text)))
                     (ex_env (Some ex_db))) initial_state
       = ([] ++ [ReadBody;
                 Call_handleApiRequest (VStr "r-1") (ex_payload ex_odd);
                 D1Run insert_sql (row_of (ex_payload ex_odd));
                 Call_errDelegate
                   ("handleApiRequest failed: " ++ "Cannot convert object to primitive value");
                 ConsoleError
                   ("handleApiRequest failed: " ++ "Cannot convert object to primitive value")]
          ++ tail)%list.
Proof.
  exact (@api_unconvertible_level_DB_ERROR_after_insert ex_runtime_odd
           (ex_api_request (Some "Bearer write-token")
              (ex_api_text (ex_payload_text ex_odd_text)))
           (ex_env (Some ex_db)) initial_state (ex_api_body (ex_payload ex_odd)) ex_db
           "Cannot convert object to primitive value"
           eq_refl eq_refl eq_refl eq_refl eq_refl eq_refl).
Defined.

Lemma webhook_message_undecodable_data_is_reported_witness :
  exists tail,
    quiet tail
    /\ @webhook_message ex_runtime
         (VObj [("data", VArr [VStr "{"; ex_odd; VStr "}"])]) (ex_state ex_db)
       = (Return tt,
          extend (ex_state ex_db)
            (Call_errDelegate
               ("❌ Could not parse message.data JSON: "
                  ++ "Cannot convert object to primitive value")
             :: ConsoleError
                  ("❌ Could not parse message.data JSON: "
                     ++ "Cannot convert object to primitive value")
             :: tail)).
Proof.
  exact (@webhook_message_undecodable_data_is_reported ex_runtime
           (VObj [("data", VArr [VStr "{"; ex_odd; VStr "}"])]) (ex_state ex_db)
           "Cannot convert object to primitive value" eq_refl eq_refl eq_refl).
Defined.
